(** * Student management backend (student-mgmt-app/backend/app.py)

    A shallow embedding of the Flask record service and of the [students]
    table it talks to, followed by the properties of the CRUD contract.

    What is modelled, and how:
    - the decoded request body ([request.get_json()]) is a [pyval]: any JSON
      value at top level, JSON scalars as field values. Floats, and arrays
      and objects nested as field values, are outside the model, and so are
      bodies that are not JSON at all;
    - text is a [string] of 8-bit characters, one character per element;
    - the table is the list of its rows in heap order, with the [SERIAL]
      sequence beside it; the column constraints of the [CREATE TABLE]
      statement ([NOT NULL], [UNIQUE], [PRIMARY KEY], [VARCHAR(100)],
      [INTEGER]) are checked by the statements, not assumed of the rows;
    - a statement parameter is converted to the type of its column before
      the statement runs, so that a value the column type rejects is
      reported before any constraint is looked at;
    - a psycopg2 connection is a transaction over the table: statements work
      on a pending copy that [commit] publishes and [rollback] discards,
      while sequence values are consumed for good;
    - whether [psycopg2.connect] succeeds is an input of every handler
      ([up]), and so is the store's clock ([now]); requests are served one
      at a time;
    - once connected, a statement fails only for what it is given (a value
      that its column rejects, a constraint of the table, the end of the
      sequence): a table that was never created or a connection lost
      midway, which the [except] branches of the reading handlers and of
      delete would answer with 500, are outside the model;
    - every handler returns what the view function produced (a response, or
      the exception that escaped it), the store afterwards, and the trace of
      what was done to the connection. *)

From Stdlib Require Import ZArith Ascii String.
From stdpp Require Import gmap strings list fin_maps pretty sorting.

Open Scope Z_scope.

(** ** Request payloads *)

(** A JSON scalar, as a field value of the payload. *)
Inductive scalar : Type :=
  | SNull
  | SBool (b : bool)
  | SInt (n : Z)
  | SStr (s : string).

(** The value of [request.get_json()]. *)
Inductive pyval : Type :=
  | PNone
  | PBool (b : bool)
  | PInt (n : Z)
  | PStr (s : string)
  | PList (l : list scalar)
  | PDict (d : gmap string scalar).

(** Python exceptions that the handlers can meet. *)
Inductive violation : Type :=
  | NotNullViolation (column : string)
  | UniqueViolation (constraint : string).

Inductive dberror : Type :=
  | IntegrityError (v : violation)
  | DataError
  | ProgrammingError.

Inductive pyexn : Type :=
  | TypeError
  | AttributeError
  | KeyError
  | ValueError
  | DatabaseError (e : dberror).

(** [sub in s] on Python strings: [sub] occurs in [s]. *)
Fixpoint occurs (sub s : string) : bool :=
  String.prefix sub s ||
  match s with
  | EmptyString => false
  | String _ s' => occurs sub s'
  end.

Definition scalar_is_str (k : string) (v : scalar) : bool :=
  match v with
  | SStr s => bool_decide (s = k)
  | _ => false
  end.

(** [field in data] *)
Definition py_contains (field : string) (data : pyval) : pyexn + bool :=
  match data with
  | PDict d => inr (bool_decide (is_Some (d !! field)))
  | PList l => inr (existsb (scalar_is_str field) l)
  | PStr s => inr (occurs field s)
  | PNone | PBool _ | PInt _ => inl TypeError
  end.

(** [data[field]] *)
Definition py_getitem (field : string) (data : pyval) : pyexn + scalar :=
  match data with
  | PDict d =>
      match d !! field with
      | Some v => inr v
      | None => inl KeyError
      end
  | _ => inl TypeError
  end.

(** [data.get(field)] *)
Definition py_get (field : string) (data : pyval) : pyexn + scalar :=
  match data with
  | PDict d => inr (default SNull (d !! field))
  | _ => inl AttributeError
  end.

(** ** The students table *)

(** One row; every column but the key can hold SQL NULL as far as the type
    goes. *)
Record row : Type := mk_row {
  row_id : Z;
  row_name : option string;
  row_email : option string;
  row_age : option Z;
  row_course : option string;
  row_created_at : option Z
}.

Record store : Type := mk_store {
  students : list row;
  students_id_seq : Z
}.

(** [CREATE TABLE IF NOT EXISTS students]: a table that is there is kept. *)
Definition empty_store : store := {| students := []; students_id_seq := 1 |}.

Definition init_db (existing : option store) : store :=
  default empty_store existing.

Definition INT4_MIN : Z := -2147483648.
Definition INT4_MAX : Z := 2147483647.
Definition VARCHAR_LIMIT : nat := 100.

Definition is_space (c : ascii) : bool := bool_decide (c = " "%char).

Fixpoint string_forallb (p : ascii → bool) (s : string) : bool :=
  match s with
  | EmptyString => true
  | String c s' => p c && string_forallb p s'
  end.

Fixpoint string_take (n : nat) (s : string) : string :=
  match n, s with
  | S n', String c s' => String c (string_take n' s')
  | _, _ => EmptyString
  end.

Fixpoint string_drop (n : nat) (s : string) : string :=
  match n, s with
  | S n', String _ s' => string_drop n' s'
  | _, _ => s
  end.

(** Assignment to a [VARCHAR(100)] column: a longer text is an error unless
    the excess is all spaces, which are cut. *)
Definition fit_varchar (s : string) : dberror + option string :=
  if bool_decide (String.length s ≤ VARCHAR_LIMIT)%nat then inr (Some s)
  else if string_forallb is_space (string_drop VARCHAR_LIMIT s)
       then inr (Some (string_take VARCHAR_LIMIT s))
       else inl DataError.

Definition has_nul (s : string) : bool :=
  negb (string_forallb (λ c, negb (bool_decide (c = "000"%char))) s).

(** A statement parameter bound to a [VARCHAR(100)] column. *)
Definition to_varchar (v : scalar) : pyexn + option string :=
  match v with
  | SNull => inr None
  | SBool b =>
      inr (Some (if b then "true" else "false")%string)
  | SInt n =>
      match fit_varchar (pretty n) with
      | inr t => inr t
      | inl e => inl (DatabaseError e)
      end
  | SStr s =>
      if has_nul s then inl ValueError
      else match fit_varchar s with
           | inr t => inr t
           | inl e => inl (DatabaseError e)
           end
  end.

Definition digit_value (c : ascii) : option Z :=
  let n := Z.of_N (N_of_ascii c) in
  if bool_decide (48 ≤ n ≤ 57) then Some (n - 48) else None.

(** The characters that C's [isspace] accepts. *)
Definition is_blank (c : ascii) : bool :=
  let n := Z.of_N (N_of_ascii c) in
  bool_decide (n = 32) || bool_decide (9 ≤ n ≤ 13).

Fixpoint skip_blanks (s : string) : string :=
  match s with
  | String c s' => if is_blank c then skip_blanks s' else s
  | EmptyString => s
  end.

Fixpoint digits_then_blanks (acc : Z) (seen : bool) (s : string) : option Z :=
  match s with
  | EmptyString => if seen then Some acc else None
  | String c s' =>
      match digit_value c with
      | Some d => digits_then_blanks (10 * acc + d) true s'
      | None =>
          if seen && string_forallb is_blank s then Some acc else None
      end
  end.

(** The input syntax of the [INTEGER] type in decimal notation: optional
    blanks, an optional sign, digits, optional blanks. The prefixed and
    underscored notations that PostgreSQL accepts from version 16 on are not
    modelled. *)
Definition parse_integer (s : string) : option Z :=
  match skip_blanks s with
  | String "-"%char s' => Z.opp <$> digits_then_blanks 0 false s'
  | String "+"%char s' => digits_then_blanks 0 false s'
  | s' => digits_then_blanks 0 false s'
  end.

Definition fit_int4 (n : Z) : dberror + option Z :=
  if bool_decide (INT4_MIN ≤ n ≤ INT4_MAX) then inr (Some n)
  else inl DataError.

(** A statement parameter bound to the [INTEGER] column. *)
Definition to_integer (v : scalar) : pyexn + option Z :=
  match v with
  | SNull => inr None
  | SBool _ => inl (DatabaseError ProgrammingError)
  | SInt n =>
      match fit_int4 n with
      | inr t => inr t
      | inl e => inl (DatabaseError e)
      end
  | SStr s =>
      if has_nul s then inl ValueError
      else match parse_integer s with
           | Some n =>
               match fit_int4 n with
               | inr t => inr t
               | inl e => inl (DatabaseError e)
               end
           | None => inl (DatabaseError DataError)
           end
  end.

(** ** Connections and statements *)

(** A psycopg2 connection: the store as committed so far and the table as
    the open transaction sees it. *)
Record connection : Type := mk_connection {
  durable : store;
  pending : list row
}.

Definition connect (db : store) : connection :=
  {| durable := db; pending := students db |}.

Definition commit (conn : connection) : connection :=
  {| durable := {| students := pending conn;
                   students_id_seq := students_id_seq (durable conn) |};
     pending := pending conn |}.

Definition rollback (conn : connection) : connection :=
  {| durable := durable conn; pending := students (durable conn) |}.

Definition close (conn : connection) : store := durable conn.

(** [nextval('students_id_seq')]: not undone by a rollback; the sequence of
    a [SERIAL] column ends at the largest 32-bit integer. *)
Definition nextval (conn : connection) : pyexn + (Z * connection) :=
  let n := students_id_seq (durable conn) in
  if bool_decide (n ≤ INT4_MAX) then
    inr (n, {| durable := {| students := students (durable conn);
                             students_id_seq := n + 1 |};
               pending := pending conn |})
  else inl (DatabaseError DataError).

Definition has_id (sid : Z) (r : row) : bool := bool_decide (row_id r = sid).

Definition id_le (r1 r2 : row) : Prop := row_id r1 ≤ row_id r2.

#[global] Instance id_le_dec : RelDecision id_le.
Proof. intros r1 r2. unfold id_le. apply _. Defined.

(** [SELECT * FROM students ORDER BY id] *)
Definition select_all (conn : connection) : list row :=
  merge_sort id_le (pending conn).

(** [SELECT * FROM students WHERE id = %s], then [fetchone()] *)
Definition select_by_id (sid : Z) (conn : connection) : option row :=
  List.find (has_id sid) (pending conn).

(** The four [NOT NULL] columns, in column order. *)
Definition null_column (r : row) : option string :=
  match row_name r, row_email r, row_age r, row_course r with
  | None, _, _, _ => Some "name"%string
  | _, None, _, _ => Some "email"%string
  | _, _, None, _ => Some "age"%string
  | _, _, _, None => Some "course"%string
  | _, _, _, _ => None
  end.

Definition email_taken (e : option string) (rs : list row) : bool :=
  match e with
  | Some _ => existsb (λ r, bool_decide (row_email r = e)) rs
  | None => false
  end.

(** The parameters of a statement, bound to the columns
    [name, email, age, course]. *)
Definition bind_columns (n e a c : scalar)
  : pyexn + (option string * option string * option Z * option string) :=
  match to_varchar n with
  | inl x => inl x
  | inr n' =>
    match to_varchar e with
    | inl x => inl x
    | inr e' =>
      match to_integer a with
      | inl x => inl x
      | inr a' =>
        match to_varchar c with
        | inl x => inl x
        | inr c' => inr (n', e', a', c')
        end
      end
    end
  end.

(** [INSERT INTO students (name, email, age, course) VALUES (...)
    RETURNING *], then [fetchone()]. *)
Definition exec_insert (n e a c : scalar) (now : Z) (conn : connection)
  : (pyexn + row) * connection :=
  match bind_columns n e a c with
  | inl x => (inl x, conn)
  | inr (n', e', a', c') =>
    match nextval conn with
    | inl x => (inl x, conn)
    | inr (i, conn1) =>
      let r := mk_row i n' e' a' c' (Some now) in
      match null_column r with
      | Some col =>
          (inl (DatabaseError (IntegrityError (NotNullViolation col))), conn1)
      | None =>
        if existsb (has_id i) (pending conn1) then
          (inl (DatabaseError (IntegrityError (UniqueViolation "students_pkey"))),
           conn1)
        else if email_taken e' (pending conn1) then
          (inl (DatabaseError
                  (IntegrityError (UniqueViolation "students_email_key"))),
           conn1)
        else
          (inr r, {| durable := durable conn1;
                     pending := pending conn1 ++ [r] |})
      end
    end
  end.

(** [UPDATE students SET name = %s, email = %s, age = %s, course = %s
    WHERE id = %s RETURNING *], then [fetchone()]; the new version of a row
    goes to the end of the heap. *)
Definition exec_update (n e a c : scalar) (sid : Z) (conn : connection)
  : (pyexn + option row) * connection :=
  match bind_columns n e a c with
  | inl x => (inl x, conn)
  | inr (n', e', a', c') =>
    let hit := filter (λ r, row_id r = sid) (pending conn) in
    let rest := filter (λ r, row_id r ≠ sid) (pending conn) in
    let renew r := mk_row (row_id r) n' e' a' c' (row_created_at r) in
    match hit with
    | [] => (inr None, conn)
    | old :: more =>
      match null_column (renew old) with
      | Some col =>
          (inl (DatabaseError (IntegrityError (NotNullViolation col))), conn)
      | None =>
        if email_taken e' rest || bool_decide (more ≠ []) then
          (inl (DatabaseError
                  (IntegrityError (UniqueViolation "students_email_key"))),
           conn)
        else
          (inr (Some (renew old)),
           {| durable := durable conn; pending := rest ++ [renew old] |})
      end
    end
  end.

(** [DELETE FROM students WHERE id = %s]; the count is [cursor.rowcount]. *)
Definition exec_delete (sid : Z) (conn : connection) : nat * connection :=
  (length (filter (λ r, row_id r = sid) (pending conn)),
   {| durable := durable conn;
      pending := filter (λ r, row_id r ≠ sid) (pending conn) |}).

(** ** Responses *)

Inductive json_value : Type :=
  | JNull
  | JInt (n : Z)
  | JStr (s : string)
  | JTimestamp (t : Z).

(** What [jsonify] is given: one object, or a list of objects. *)
Inductive json : Type :=
  | JObject (members : list (string * json_value))
  | JArray (items : list (list (string * json_value))).

Record response : Type := mk_response {
  body : json;
  status : Z
}.

(** What a view function does: return a response, or let an exception out. *)
Inductive outcome : Type :=
  | Returned (r : response)
  | Raised (e : pyexn).

Inductive statement : Type :=
  | SelectAll
  | SelectById
  | Insert
  | Update
  | Delete.

Inductive event : Type :=
  | Connect
  | ConnectFailed
  | Execute (s : statement)
  | Commit
  | Rollback
  | Close.

Record result : Type := mk_result {
  out : outcome;
  store_after : store;
  trace : list event
}.

Definition error_body (msg : string) : json := JObject [("error"%string, JStr msg)].

Definition json_of_text (t : option string) : json_value :=
  match t with
  | Some s => JStr s
  | None => JNull
  end.

Definition json_of_int (t : option Z) : json_value :=
  match t with
  | Some n => JInt n
  | None => JNull
  end.

Definition json_of_timestamp (t : option Z) : json_value :=
  match t with
  | Some n => JTimestamp n
  | None => JNull
  end.

(** [dict(student)] for a row of a [RealDictCursor]. *)
Definition row_json (r : row) : list (string * json_value) :=
  [ ("id"%string, JInt (row_id r));
    ("name"%string, json_of_text (row_name r));
    ("email"%string, json_of_text (row_email r));
    ("age"%string, json_of_int (row_age r));
    ("course"%string, json_of_text (row_course r));
    ("created_at"%string, json_of_timestamp (row_created_at r)) ].

Definition has_key (k : string) (b : json) : bool :=
  match b with
  | JObject members => existsb (λ m, bool_decide (m.1 = k)) members
  | JArray _ => false
  end.

(** ** The view functions *)

Definition get_db_connection (up : bool) (db : store) : option connection :=
  if up then Some (connect db) else None.

Definition connection_failed (db : store) : result :=
  {| out := Returned (mk_response (error_body "Database connection failed") 500);
     store_after := db;
     trace := [ConnectFailed] |}.

Definition health_check : response :=
  mk_response
    (JObject [ ("status"%string, JStr "healthy");
               ("service"%string, JStr "student-management-backend") ])
    200.

Definition get_students (up : bool) (db : store) : result :=
  match get_db_connection up db with
  | None => connection_failed db
  | Some conn =>
      let students := select_all conn in
      {| out := Returned (mk_response (JArray (row_json <$> students)) 200);
         store_after := close conn;
         trace := [Connect; Execute SelectAll; Close] |}
  end.

Definition get_student (up : bool) (student_id : Z) (db : store) : result :=
  match get_db_connection up db with
  | None => connection_failed db
  | Some conn =>
      let reply :=
        match select_by_id student_id conn with
        | Some student => mk_response (JObject (row_json student)) 200
        | None => mk_response (error_body "Student not found") 404
        end in
      {| out := Returned reply;
         store_after := close conn;
         trace := [Connect; Execute SelectById; Close] |}
  end.

Definition required_fields : list string :=
  ["name"; "email"; "age"; "course"]%string.

(** The validation loop of [create_student]: the first field of [fields]
    that is not in [data], if there is one. *)
Fixpoint missing_field (fields : list string) (data : pyval)
  : pyexn + option string :=
  match fields with
  | [] => inr None
  | field :: fields' =>
      match py_contains field data with
      | inl x => inl x
      | inr false => inr (Some field)
      | inr true => missing_field fields' data
      end
  end.

(** The tuple [(data['name'], data['email'], data['age'], data['course'])]. *)
Definition create_params (data : pyval)
  : pyexn + (scalar * scalar * scalar * scalar) :=
  match py_getitem "name" data with
  | inl x => inl x
  | inr n =>
    match py_getitem "email" data with
    | inl x => inl x
    | inr e =>
      match py_getitem "age" data with
      | inl x => inl x
      | inr a =>
        match py_getitem "course" data with
        | inl x => inl x
        | inr c => inr (n, e, a, c)
        end
      end
    end
  end.

(** The tuple [(data.get('name'), data.get('email'), data.get('age'),
    data.get('course'))]. *)
Definition update_params (data : pyval)
  : pyexn + (scalar * scalar * scalar * scalar) :=
  match py_get "name" data with
  | inl x => inl x
  | inr n =>
    match py_get "email" data with
    | inl x => inl x
    | inr e =>
      match py_get "age" data with
      | inl x => inl x
      | inr a =>
        match py_get "course" data with
        | inl x => inl x
        | inr c => inr (n, e, a, c)
        end
      end
    end
  end.

(** The two [except] clauses shared by the writing handlers: an
    [IntegrityError] is answered with 409, anything else with 500, after a
    rollback either way. *)
Definition failed_write (x : pyexn) (other : string) : response :=
  match x with
  | DatabaseError (IntegrityError _) =>
      mk_response (error_body "Email already exists") 409
  | _ => mk_response (error_body other) 500
  end.

Definition create_student (up : bool) (now : Z) (data : pyval) (db : store)
  : result :=
  match missing_field required_fields data with
  | inl x => {| out := Raised x; store_after := db; trace := [] |}
  | inr (Some field) =>
      {| out := Returned
                  (mk_response
                     (error_body ("Missing required field: " +:+ field)) 400);
         store_after := db;
         trace := [] |}
  | inr None =>
    match get_db_connection up db with
    | None => connection_failed db
    | Some conn =>
      match create_params data with
      | inl x =>
          {| out := Returned (failed_write x "Failed to create student");
             store_after := close (rollback conn);
             trace := [Connect; Rollback; Close] |}
      | inr (n, e, a, c) =>
        match exec_insert n e a c now conn with
        | (inr new_student, conn') =>
            {| out := Returned (mk_response (JObject (row_json new_student)) 201);
               store_after := close (commit conn');
               trace := [Connect; Execute Insert; Commit; Close] |}
        | (inl x, conn') =>
            {| out := Returned (failed_write x "Failed to create student");
               store_after := close (rollback conn');
               trace := [Connect; Execute Insert; Rollback; Close] |}
        end
      end
    end
  end.

Definition update_student (up : bool) (student_id : Z) (data : pyval)
  (db : store) : result :=
  match get_db_connection up db with
  | None => connection_failed db
  | Some conn =>
    match select_by_id student_id conn with
    | None =>
        {| out := Returned (mk_response (error_body "Student not found") 404);
           store_after := close conn;
           trace := [Connect; Execute SelectById; Close] |}
    | Some _ =>
      match update_params data with
      | inl x =>
          {| out := Returned (failed_write x "Failed to update student");
             store_after := close (rollback conn);
             trace := [Connect; Execute SelectById; Rollback; Close] |}
      | inr (n, e, a, c) =>
        match exec_update n e a c student_id conn with
        | (inr (Some updated_student), conn') =>
            {| out := Returned
                        (mk_response (JObject (row_json updated_student)) 200);
               store_after := close (commit conn');
               trace := [Connect; Execute SelectById; Execute Update;
                         Commit; Close] |}
        | (inr None, conn') =>
            (* [dict(None)] raises TypeError, after the commit *)
            {| out := Returned (failed_write TypeError "Failed to update student");
               store_after := close (rollback (commit conn'));
               trace := [Connect; Execute SelectById; Execute Update;
                         Commit; Rollback; Close] |}
        | (inl x, conn') =>
            {| out := Returned (failed_write x "Failed to update student");
               store_after := close (rollback conn');
               trace := [Connect; Execute SelectById; Execute Update;
                         Rollback; Close] |}
        end
      end
    end
  end.

Definition delete_student (up : bool) (student_id : Z) (db : store) : result :=
  match get_db_connection up db with
  | None => connection_failed db
  | Some conn =>
    match exec_delete student_id conn with
    | (O, conn') =>
        {| out := Returned (mk_response (error_body "Student not found") 404);
           store_after := close conn';
           trace := [Connect; Execute Delete; Close] |}
    | (_, conn') =>
        {| out := Returned
                    (mk_response
                       (JObject [("message"%string,
                                  JStr "Student deleted successfully")]) 200);
           store_after := close (commit conn');
           trace := [Connect; Execute Delete; Commit; Close] |}
    end
  end.

(** The routes of [app]. *)
Inductive request : Type :=
  | Health
  | ListStudents
  | GetStudent (student_id : Z)
  | CreateStudent (data : pyval)
  | UpdateStudent (student_id : Z) (data : pyval)
  | DeleteStudent (student_id : Z).

Definition app (up : bool) (now : Z) (req : request) (db : store) : result :=
  match req with
  | Health => {| out := Returned health_check; store_after := db; trace := [] |}
  | ListStudents => get_students up db
  | GetStudent student_id => get_student up student_id db
  | CreateStudent data => create_student up now data db
  | UpdateStudent student_id data => update_student up student_id data db
  | DeleteStudent student_id => delete_student up student_id db
  end.

(** Store states that the service can be in: the freshly initialised table,
    and whatever a request leaves behind. *)
Inductive reachable : store → Prop :=
  | reachable_init : reachable (init_db None)
  | reachable_step up now req db :
      reachable db → reachable (store_after (app up now req db)).

(** ** Table invariants *)

Definition row_complete (r : row) : Prop :=
  is_Some (row_name r) ∧ is_Some (row_email r) ∧
  is_Some (row_age r) ∧ is_Some (row_course r).

Record table_ok (rs : list row) : Prop := mk_table_ok {
  ids_unique : NoDup (row_id <$> rs);
  emails_unique : NoDup (row_email <$> rs);
  rows_complete : Forall row_complete rs
}.

Definition store_ok (db : store) : Prop := table_ok (students db).

(** [f] is the first required field that the object [d] has no key for. *)
Definition first_absent (f : string) (d : gmap string scalar) : Prop :=
  ∃ before after,
    required_fields = before ++ f :: after ∧
    Forall (λ g, is_Some (d !! g)) before ∧
    d !! f = None.

Definition is_2xx (code : Z) : Prop := 200 ≤ code < 300.

Definition id_lt (r1 r2 : row) : Prop := row_id r1 < row_id r2.

Definition created (o : outcome) : Prop :=
  ∃ r, o = Returned r ∧ status r = 201.

(** A series of create requests, each with its connectivity and clock,
    served one after the other: the answers, and the store at the end. *)
Fixpoint create_all (reqs : list (bool * Z * pyval)) (db : store)
  : list outcome * store :=
  match reqs with
  | [] => ([], db)
  | (up, now, data) :: reqs' =>
      let res := create_student up now data db in
      let rest := create_all reqs' (store_after res) in
      (out res :: rest.1, rest.2)
  end.

(** The object [d] has the four keys, and their values are bound to
    non-null column values, the email to [em]. *)
Definition acceptable (d : gmap string scalar) (em : string) : Prop :=
  ∃ n e a c n' a' c',
    create_params (PDict d) = inr (n, e, a, c)
    ∧ bind_columns n e a c = inr (Some n', Some em, Some a', Some c').

(** A create request served with the store reachable, whose payload is an
    acceptable object with email [em]. *)
Definition valid_create (req : bool * Z * pyval) (em : string) : Prop :=
  req.1.1 = true ∧ ∃ d, req.2 = PDict d ∧ acceptable d em.

(** The student of the end-to-end scenario, and the store once the student
    has been created on the freshly initialised table. *)
Definition ann : gmap string scalar :=
  list_to_map [ ("name"%string, SStr "Ann"); ("email"%string, SStr "ann@x.com");
                ("age"%string, SInt 20); ("course"%string, SStr "CS") ].

Definition ann_store : store :=
  store_after (create_student true 1000 (PDict ann) (init_db None)).

(** A second student who gives the email of the first, and an age that is
    not a number. *)
Definition bob : gmap string scalar :=
  list_to_map [ ("name"%string, SStr "Bob"); ("email"%string, SStr "ann@x.com");
                ("age"%string, SStr "twenty"); ("course"%string, SStr "CS") ].

(** A response has the documented shape when it carries an [error] key
    exactly if its status is not 2xx. *)
Definition well_shaped (r : response) : Prop :=
  (is_2xx (status r) → has_key "error" (body r) = false)
  ∧ (¬ is_2xx (status r) → has_key "error" (body r) = true).

(** The partial payload of the end-to-end scenario, and a payload without
    a course. *)
Definition name_only : gmap string scalar := {[ "name"%string := SStr "Ann B" ]}.

Definition no_course : gmap string scalar :=
  list_to_map [ ("name"%string, SStr "Cy"); ("email"%string, SStr "cy@x.com");
                ("age"%string, SInt 31) ].

Definition cy : gmap string scalar := <["course"%string := SStr "EE"]> no_course.

(** Ann's payload with an id and a creation time of the caller's own. *)
Definition ann_with_id : gmap string scalar :=
  <["id"%string := SInt 77]> (<["created_at"%string := SStr "1999-01-01"]> ann).

(** The ids handed out so far: the sequence is within the range of a
    [SERIAL] column, and every stored id is positive and below it. *)
Definition ids_issued (db : store) : Prop :=
  1 ≤ students_id_seq db ≤ INT4_MAX + 1
  ∧ Forall (λ r, 1 ≤ row_id r < students_id_seq db) (students db).

(** A stored value is within what its column type can hold. *)
Definition text_fits (t : option string) : Prop :=
  ∀ s, t = Some s → (String.length s ≤ VARCHAR_LIMIT)%nat.

Definition int_fits (t : option Z) : Prop :=
  ∀ n, t = Some n → INT4_MIN ≤ n ≤ INT4_MAX.

Definition row_fits (r : row) : Prop :=
  text_fits (row_name r) ∧ text_fits (row_email r)
  ∧ int_fits (row_age r) ∧ text_fits (row_course r).

(** Ann's payload with a null name. *)
Definition ann_unnamed : gmap string scalar := <["name"%string := SNull]> ann.

#[global] Instance statement_eq_dec : EqDecision statement.
Proof. solve_decision. Defined.

#[global] Instance event_eq_dec : EqDecision event.
Proof. solve_decision. Defined.

(** A trace in which the connection, if one was opened, was opened first,
    closed last, and neither opened nor closed in between. *)
Definition well_bracketed (t : list event) : Prop :=
  t = [] ∨ t = [ConnectFailed]
  ∨ (head t = Some Connect ∧ last t = Some Close
     ∧ length (filter (λ e, e = Connect) t) = 1%nat
     ∧ length (filter (λ e, e = Close) t) = 1%nat
     ∧ ConnectFailed ∉ t).

(** Payloads that are not objects but name the four fields. *)
Definition four_names : pyval := PStr "name email age course".

Definition four_elements : pyval :=
  PList [SStr "course"; SStr "age"; SStr "email"; SStr "name"].

(** The statements that write a row, and the calls that end a
    transaction. *)
Definition is_write (e : event) : bool :=
  match e with
  | Execute Insert | Execute Update => true
  | _ => false
  end.

Definition is_end (e : event) : bool :=
  match e with
  | Commit | Rollback => true
  | _ => false
  end.

(** Every write of the trace has a commit or a rollback somewhere after
    it. *)
Fixpoint writes_ended (t : list event) : bool :=
  match t with
  | [] => true
  | e :: t' => (negb (is_write e) || existsb is_end t') && writes_ended t'
  end.

(** * Properties *)

(** Closes [Forall (λ g, is_Some (d !! g)) required_fields] for a concrete
    object [d]. *)
Ltac all_present :=
  unfold required_fields;
  repeat (apply Forall_cons; split; [vm_compute; by eexists|]);
  by apply Forall_nil.

(** ** Lookups and filters on the table *)

Lemma find_has_id_Some sid rs r :
  List.find (has_id sid) rs = Some r → r ∈ rs ∧ row_id r = sid.
Proof.
  intros H. apply find_some in H as [Hin Hid].
  split; [by apply list_elem_of_In|].
  unfold has_id in Hid. by apply bool_decide_eq_true in Hid.
Qed.

Lemma find_has_id_None sid rs :
  List.find (has_id sid) rs = None ↔ ∀ r, r ∈ rs → row_id r ≠ sid.
Proof.
  induction rs as [|x rs IH]; simpl.
  - split; [intros _ r Hr; by apply elem_of_nil in Hr | done].
  - unfold has_id at 1. case_bool_decide as Hx.
    + split; [done|]. intros H. exfalso. apply (H x); [left | done].
    + rewrite IH. split.
      * intros H r Hr. apply elem_of_cons in Hr as [->|Hr]; auto.
      * intros H r Hr. apply H. by right.
Qed.

Lemma filter_id_none sid (rs : list row) :
  (∀ r, r ∈ rs → row_id r ≠ sid) →
  filter (λ r, row_id r = sid) rs = [] ∧ filter (λ r, row_id r ≠ sid) rs = rs.
Proof.
  induction rs as [|x rs IH]; intros H; [done|].
  assert (row_id x ≠ sid) as Hx by (apply H; left).
  destruct IH as [IH1 IH2]; [intros r Hr; apply H; by right|].
  rewrite !filter_cons. repeat case_decide; try done.
  by rewrite IH1, IH2.
Qed.

Lemma filter_id_some sid (rs : list row) r :
  r ∈ rs → row_id r = sid → filter (λ r, row_id r = sid) rs ≠ [].
Proof.
  intros Hin Hid Hnil.
  assert (r ∈ filter (λ r, row_id r = sid) rs) as H
    by (apply list_elem_of_filter; done).
  rewrite Hnil in H. by apply elem_of_nil in H.
Qed.

Lemma find_filter_out sid (rs : list row) :
  List.find (has_id sid) (filter (λ r, row_id r ≠ sid) rs) = None.
Proof.
  apply find_has_id_None. intros r Hr.
  by apply list_elem_of_filter in Hr as [? _].
Qed.

Lemma Forall_id_ne sid (rs : list row) :
  Forall (λ r, row_id r ≠ sid) rs → ∀ r, r ∈ rs → row_id r ≠ sid.
Proof. intros H. by apply Forall_forall. Qed.

Lemma Exists_id_eq sid (rs : list row) :
  Exists (λ r, row_id r = sid) rs → ∃ r, r ∈ rs ∧ row_id r = sid.
Proof. intros H. by apply Exists_exists. Qed.

(** ** Update of an unknown id *)

(** C4. An update whose id matches no stored row is answered 404
    "Student not found", whatever the payload, and leaves the store as it
    was. *)
Theorem update_unknown_id_404 (sid : Z) (data : pyval) (db : store) :
  Forall (λ r, row_id r ≠ sid) (students db) →
  out (update_student true sid data db)
    = Returned (mk_response (error_body "Student not found") 404)
  ∧ store_after (update_student true sid data db) = db.
Proof.
  intros H. pose proof (Forall_id_ne _ _ H) as H'.
  apply find_has_id_None in H'. rename H' into Hfind.
  unfold update_student, get_db_connection, select_by_id, connect; simpl.
  rewrite Hfind. simpl. done.
Qed.

(** ** Delete *)

Lemma delete_student_unknown sid db :
  Forall (λ r, row_id r ≠ sid) (students db) →
  delete_student true sid db
    = {| out := Returned (mk_response (error_body "Student not found") 404);
         store_after := db;
         trace := [Connect; Execute Delete; Close] |}.
Proof.
  intros H. pose proof (Forall_id_ne _ _ H) as H'.
  apply filter_id_none in H' as [H1 H2].
  unfold delete_student, get_db_connection, exec_delete, connect; simpl.
  rewrite H1. simpl. by destruct db.
Qed.

Lemma delete_student_known sid db :
  Exists (λ r, row_id r = sid) (students db) →
  delete_student true sid db
    = {| out := Returned
                  (mk_response
                     (JObject [("message"%string,
                                JStr "Student deleted successfully")]) 200);
         store_after :=
           {| students := filter (λ r, row_id r ≠ sid) (students db);
              students_id_seq := students_id_seq db |};
         trace := [Connect; Execute Delete; Commit; Close] |}.
Proof.
  intros H. apply Exists_id_eq in H as (r & Hin & Hid).
  pose proof (filter_id_some sid _ r Hin Hid) as Hne.
  unfold delete_student, get_db_connection, exec_delete, connect; simpl.
  destruct (filter (λ r0, row_id r0 = sid) (students db)); done.
Qed.

(** C6. Deleting an id that matches no row is answered 404 and changes
    nothing; deleting an id that matches a row is answered 200 with a
    confirmation message, commits a table without that row and with every
    other row as it was, and a get of the same id afterwards is answered
    404. *)
Theorem delete_student_removes_row (sid : Z) (db : store) :
  (Forall (λ r, row_id r ≠ sid) (students db) →
     out (delete_student true sid db)
       = Returned (mk_response (error_body "Student not found") 404)
     ∧ store_after (delete_student true sid db) = db)
  ∧
  (Exists (λ r, row_id r = sid) (students db) →
     let db' := store_after (delete_student true sid db) in
     out (delete_student true sid db)
       = Returned
           (mk_response
              (JObject [("message"%string, JStr "Student deleted successfully")])
              200)
     ∧ Commit ∈ trace (delete_student true sid db)
     ∧ students db' = filter (λ r, row_id r ≠ sid) (students db)
     ∧ (∀ r, row_id r ≠ sid → r ∈ students db' ↔ r ∈ students db)
     ∧ (∀ r, r ∈ students db' → row_id r ≠ sid)
     ∧ out (get_student true sid db')
         = Returned (mk_response (error_body "Student not found") 404)).
Proof.
  split; intros H.
  - by rewrite (delete_student_unknown _ _ H).
  - rewrite (delete_student_known _ _ H). simpl.
    split; [done|]. split; [set_solver|]. split; [done|].
    split; [|split].
    + intros r Hr. rewrite list_elem_of_filter. tauto.
    + intros r Hr. by apply list_elem_of_filter in Hr as [? _].
    + unfold get_student, get_db_connection, select_by_id, connect; simpl.
      by rewrite find_filter_out.
Qed.

(** ** Validation of a create request *)

Lemma py_contains_dict f d :
  py_contains f (PDict d) = inr (bool_decide (is_Some (d !! f))).
Proof. done. Qed.

Lemma find_first {A} (p : A → bool) (l : list A) x :
  List.find p l = Some x →
  ∃ before after,
    l = before ++ x :: after ∧ Forall (λ y, p y = false) before ∧ p x = true.
Proof.
  revert x. induction l as [|a l IH]; intros x; simpl; [done|].
  destruct (p a) eqn:Ha.
  - intros [= <-]. by exists [], l.
  - intros H. destruct (IH _ H) as (before & after & -> & Hb & Hx).
    exists (a :: before), after. split; [done|]. split; [|done].
    by constructor.
Qed.

Lemma missing_field_dict fields d :
  missing_field fields (PDict d)
    = inr (List.find (λ f, negb (bool_decide (is_Some (d !! f)))) fields).
Proof.
  induction fields as [|f fields IH]; [done|].
  cbn [missing_field List.find]. rewrite py_contains_dict.
  by destruct (bool_decide (is_Some (d !! f))).
Qed.

Lemma missing_field_absent fields d :
  (∃ f, f ∈ fields ∧ d !! f = None) →
  ∃ f before after,
    missing_field fields (PDict d) = inr (Some f) ∧
    fields = before ++ f :: after ∧
    Forall (λ g, is_Some (d !! g)) before ∧
    d !! f = None.
Proof.
  intros (f & Hin & Hf). rewrite missing_field_dict.
  destruct (List.find _ fields) as [g|] eqn:Hfind.
  - apply find_first in Hfind as (before & after & -> & Hb & Hg).
    exists g, before, after. split; [done|]. split; [done|]. split.
    + eapply Forall_impl; [exact Hb|]. simpl. intros x Hx.
      apply negb_false_iff in Hx. by apply bool_decide_eq_true in Hx.
    + apply negb_true_iff, bool_decide_eq_false in Hg.
      by apply eq_None_not_Some.
  - exfalso. apply list_elem_of_In in Hin.
    pose proof (find_none _ _ Hfind _ Hin) as Hx. simpl in Hx.
    apply negb_false_iff, bool_decide_eq_true in Hx.
    rewrite Hf in Hx. by destruct Hx.
Qed.

Lemma missing_field_present fields d :
  Forall (λ g, is_Some (d !! g)) fields →
  missing_field fields (PDict d) = inr None.
Proof.
  intros H. rewrite missing_field_dict. f_equal.
  induction H as [|g fields Hg _ IH]; [done|].
  simpl. by rewrite bool_decide_eq_true_2.
Qed.

Lemma create_student_missing up now d db f :
  missing_field required_fields (PDict d) = inr (Some f) →
  create_student up now (PDict d) db
    = {| out := Returned
                  (mk_response (error_body ("Missing required field: " +:+ f))
                     400);
         store_after := db;
         trace := [] |}.
Proof. intros H. unfold create_student. by rewrite H. Qed.

(** What [create_student] answers once the validation loop has passed. *)
Lemma create_student_validated up now data db r :
  missing_field required_fields data = inr None →
  out (create_student up now data db) = Returned r →
  status r = 201 ∨ status r = 409 ∨ status r = 500.
Proof.
  intros Hv. unfold create_student. rewrite Hv.
  destruct up; simpl; [|intros [= <-]; auto].
  destruct (create_params data) as [x|[[[n e] a] c]]; simpl.
  - intros [= <-]. unfold failed_write.
    destruct x as [| | | |[]]; simpl; auto.
  - destruct (exec_insert n e a c now (connect db)) as [[x|new] conn']; simpl.
    + intros [= <-]. unfold failed_write.
      destruct x as [| | | |[]]; simpl; auto.
    + intros [= <-]. auto.
Qed.

(** C3. A create request whose payload object lacks one of the keys name,
    email, age, course is answered 400 with the message naming the first
    absent one in that order; and when the four keys are present, whatever
    their values (empty, null or of the wrong type), the answer is never
    the 400 of the validation: only the presence of the keys is checked. *)
Theorem create_student_missing_field_400
  (up : bool) (now : Z) (d : gmap string scalar) (db : store) :
  ((∃ f, f ∈ required_fields ∧ d !! f = None) →
     ∃ f, first_absent f d ∧
       out (create_student up now (PDict d) db)
         = Returned
             (mk_response (error_body ("Missing required field: " +:+ f)) 400))
  ∧
  (Forall (λ g, is_Some (d !! g)) required_fields →
     missing_field required_fields (PDict d) = inr None ∧
     ∀ r, out (create_student up now (PDict d) db) = Returned r →
          status r ≠ 400).
Proof.
  split.
  - intros H.
    destruct (missing_field_absent _ _ H) as (f & b & a & Hm & Hsplit & Hb & Hf).
    exists f. split; [by exists b, a|].
    by rewrite (create_student_missing _ _ _ _ _ Hm).
  - intros H. pose proof (missing_field_present _ _ H) as Hv.
    split; [done|]. intros r Hr.
    destruct (create_student_validated _ _ _ _ _ Hv Hr) as [->|[->| ->]]; done.
Qed.

(** C10. A create request whose payload object lacks a required key is
    answered 400 before [get_db_connection] is called: the trace of the
    request holds no connection event, the store is as it was, and the
    answer is the same whether the store can be reached or not. *)
Theorem create_student_missing_field_before_connect
  (up : bool) (now : Z) (d : gmap string scalar) (db : store) :
  (∃ f, f ∈ required_fields ∧ d !! f = None) →
  ∃ f, first_absent f d ∧
    create_student up now (PDict d) db
      = {| out := Returned
                    (mk_response
                       (error_body ("Missing required field: " +:+ f)) 400);
           store_after := db;
           trace := [] |}
    ∧ create_student false now (PDict d) db = create_student true now (PDict d) db.
Proof.
  intros H.
  destruct (missing_field_absent _ _ H) as (f & b & a & Hm & Hsplit & Hb & Hf).
  exists f. split; [by exists b, a|].
  by rewrite !(create_student_missing _ _ _ _ _ Hm).
Qed.

(** ** What the writing handlers do to the table *)

Lemma null_column_complete r : null_column r = None ↔ row_complete r.
Proof.
  unfold null_column, row_complete.
  destruct (row_name r), (row_email r), (row_age r), (row_course r);
    split; try done; intros (H1 & H2 & H3 & H4);
    by (inversion H1 || inversion H2 || inversion H3 || inversion H4).
Qed.

Lemma has_id_free i (rs : list row) :
  existsb (has_id i) rs = false → i ∉ row_id <$> rs.
Proof.
  intros H Hin. apply list_elem_of_fmap in Hin as (r & -> & Hr).
  apply not_true_iff_false in H. apply H. apply existsb_exists.
  exists r. split; [by apply list_elem_of_In|].
  by apply bool_decide_eq_true.
Qed.

Lemma email_free e (rs : list row) :
  is_Some e → email_taken e rs = false → e ∉ row_email <$> rs.
Proof.
  intros [s ->] H Hin. apply list_elem_of_fmap in Hin as (r & Hr & Hin).
  apply not_true_iff_false in H. apply H. simpl. apply existsb_exists.
  exists r. split; [by apply list_elem_of_In|].
  by apply bool_decide_eq_true.
Qed.

Lemma email_taken_elem e (rs : list row) r :
  r ∈ rs → row_email r = Some e → email_taken (Some e) rs = true.
Proof.
  intros Hin He. simpl. apply existsb_exists.
  exists r. split; [by apply list_elem_of_In|].
  by apply bool_decide_eq_true.
Qed.

Lemma NoDup_fmap_filter {A B} (f : A → B) (P : A → Prop)
  `{∀ x, Decision (P x)} (l : list A) :
  NoDup (f <$> l) → NoDup (f <$> filter P l).
Proof.
  induction l as [|x l IH]; [done|].
  rewrite fmap_cons, NoDup_cons. intros [Hx Hl].
  rewrite filter_cons. case_decide; [|by apply IH].
  rewrite fmap_cons, NoDup_cons. split; [|by apply IH].
  intros Hin. apply Hx.
  apply list_elem_of_fmap in Hin as (y & -> & Hy).
  apply list_elem_of_filter in Hy as [_ Hy].
  apply list_elem_of_fmap. by exists y.
Qed.

Lemma table_ok_filter (P : row → Prop) `{∀ x, Decision (P x)} rs :
  table_ok rs → table_ok (filter P rs).
Proof.
  intros [Hi He Hc]. split.
  - by apply NoDup_fmap_filter.
  - by apply NoDup_fmap_filter.
  - apply Forall_forall. intros r Hr.
    apply list_elem_of_filter in Hr as [_ Hr].
    by apply (proj1 (Forall_forall _ _) Hc).
Qed.

Lemma table_ok_snoc rs r :
  table_ok rs →
  null_column r = None →
  row_id r ∉ row_id <$> rs →
  email_taken (row_email r) rs = false →
  table_ok (rs ++ [r]).
Proof.
  intros [Hi He Hc] Hn Hid Hem.
  apply null_column_complete in Hn.
  split.
  - rewrite fmap_app. apply NoDup_app. split; [done|]. split.
    + intros x Hx Hx'. apply list_elem_of_singleton in Hx'. by subst.
    + apply NoDup_singleton.
  - rewrite fmap_app. apply NoDup_app. split; [done|]. split.
    + intros x Hx Hx'. apply list_elem_of_singleton in Hx'. subst.
      revert Hx. apply email_free; [apply Hn | done].
    + apply NoDup_singleton.
  - apply Forall_app. split; [done|]. by apply Forall_singleton.
Qed.

Lemma table_ok_nil : table_ok [].
Proof. split; simpl; constructor. Qed.

(** The outcome of the INSERT statement. *)
Lemma exec_insert_cases n e a c now conn :
  (∃ r,
     exec_insert n e a c now conn
       = (inr r, {| durable := {| students := students (durable conn);
                                  students_id_seq := row_id r + 1 |};
                    pending := pending conn ++ [r] |})
     ∧ row_id r = students_id_seq (durable conn)
     ∧ row_created_at r = Some now
     ∧ bind_columns n e a c
         = inr (row_name r, row_email r, row_age r, row_course r)
     ∧ null_column r = None
     ∧ existsb (has_id (row_id r)) (pending conn) = false
     ∧ email_taken (row_email r) (pending conn) = false)
  ∨
  (∃ x conn',
     exec_insert n e a c now conn = (inl x, conn')
     ∧ students (durable conn') = students (durable conn)).
Proof.
  unfold exec_insert.
  destruct (bind_columns n e a c) as [x|[[[n' e'] a'] c']] eqn:Hb;
    [right; by eexists _, _|].
  unfold nextval. case_bool_decide as Hseq; [|right; by eexists _, _].
  set (r := mk_row _ n' e' a' c' (Some now)).
  destruct (null_column r) eqn:Hn; [right; by eexists _, _|].
  simpl pending.
  destruct (existsb (has_id _) (pending conn)) eqn:Hid; [right; by eexists _, _|].
  destruct (email_taken e' (pending conn)) eqn:Hem; [right; by eexists _, _|].
  left. exists r. done.
Qed.

(** The two ways a create request can end: a row was appended and 201
    returned, or nothing was stored and something else than 201 came out. *)
Lemma create_student_cases up now data db :
  (∃ r,
     out (create_student up now data db)
       = Returned (mk_response (JObject (row_json r)) 201)
     ∧ trace (create_student up now data db)
         = [Connect; Execute Insert; Commit; Close]
     ∧ students (store_after (create_student up now data db))
         = students db ++ [r]
     ∧ null_column r = None
     ∧ existsb (has_id (row_id r)) (students db) = false
     ∧ email_taken (row_email r) (students db) = false)
  ∨
  ((∀ r, out (create_student up now data db) = Returned r → status r ≠ 201)
   ∧ students (store_after (create_student up now data db)) = students db).
Proof.
  unfold create_student.
  destruct (missing_field required_fields data) as [x|[f|]]; simpl;
    [right; split; [done|done] | right; split; [by intros r [= <-]|done] |].
  destruct up; simpl; [|right; split; [by intros r [= <-]|done]].
  destruct (create_params data) as [x|[[[n e] a] c]]; simpl.
  { right. split; [|done]. intros r [= <-].
    unfold failed_write. by destruct x as [| | | |[]]. }
  destruct (exec_insert_cases n e a c now (connect db))
    as [(r & -> & _ & _ & _ & Hn & Hid & Hem)|(x & conn' & -> & Hst)]; simpl.
  - left. exists r. done.
  - right. split; [|done]. intros r [= <-].
    unfold failed_write. by destruct x as [| | | |[]].
Qed.

(** The outcome of the UPDATE statement. *)
Lemma exec_update_cases n e a c sid conn :
  (∃ old n' e' a' c',
     let new := mk_row (row_id old) n' e' a' c' (row_created_at old) in
     exec_update n e a c sid conn
       = (inr (Some new),
          {| durable := durable conn;
             pending := filter (λ r, row_id r ≠ sid) (pending conn) ++ [new] |})
     ∧ filter (λ r, row_id r = sid) (pending conn) = [old]
     ∧ bind_columns n e a c = inr (n', e', a', c')
     ∧ null_column new = None
     ∧ email_taken e' (filter (λ r, row_id r ≠ sid) (pending conn)) = false)
  ∨ (exec_update n e a c sid conn = (inr None, conn)
     ∧ filter (λ r, row_id r = sid) (pending conn) = [])
  ∨ (∃ x, exec_update n e a c sid conn = (inl x, conn)).
Proof.
  unfold exec_update.
  destruct (bind_columns n e a c) as [x|[[[n' e'] a'] c']] eqn:Hb;
    [right; right; by eexists|].
  destruct (filter (λ r, row_id r = sid) (pending conn)) as [|old more] eqn:Hhit;
    [right; left; done|].
  destruct (null_column _) eqn:Hn; [right; right; by eexists|].
  destruct (email_taken e' _) eqn:Hem; simpl; [right; right; by eexists|].
  case_bool_decide as Hmore; [right; right; by eexists|].
  left. exists old, n', e', a', c'. simpl.
  by rewrite Hmore.
Qed.

Lemma failed_write_not_2xx x other :
  status (failed_write x other) = 409 ∨ status (failed_write x other) = 500.
Proof. unfold failed_write. destruct x as [| | | |[]]; simpl; auto. Qed.

(** The two ways an update request can end: the row was replaced and 200
    returned, or the store is as it was and something else than 200 came
    out. *)
Lemma update_student_cases up sid data db :
  (∃ old new n e a c,
     out (update_student up sid data db)
       = Returned (mk_response (JObject (row_json new)) 200)
     ∧ store_after (update_student up sid data db)
         = {| students := filter (λ r, row_id r ≠ sid) (students db) ++ [new];
              students_id_seq := students_id_seq db |}
     ∧ filter (λ r, row_id r = sid) (students db) = [old]
     ∧ row_id new = row_id old
     ∧ row_created_at new = row_created_at old
     ∧ update_params data = inr (n, e, a, c)
     ∧ bind_columns n e a c
         = inr (row_name new, row_email new, row_age new, row_course new)
     ∧ null_column new = None
     ∧ email_taken (row_email new)
         (filter (λ r, row_id r ≠ sid) (students db)) = false)
  ∨
  ((∀ r, out (update_student up sid data db) = Returned r → status r ≠ 200)
   ∧ store_after (update_student up sid data db) = db).
Proof.
  unfold update_student.
  destruct up; simpl; [|right; split; [by intros r [= <-]|done]].
  destruct (select_by_id sid (connect db)) as [found|]; simpl;
    [|right; split; [by intros r [= <-]|done]].
  destruct (update_params data) as [x|[[[n e] a] c]] eqn:Hp; simpl.
  { right. split; [|done]. intros r [= <-].
    by destruct (failed_write_not_2xx x "Failed to update student") as [->| ->]. }
  destruct (exec_update_cases n e a c sid (connect db))
    as [(old & n' & e' & a' & c' & Hex & Hhit & Hb & Hn & Hem)
       |[[Hex Hhit]|[x Hex]]]; simpl in *; rewrite Hex; simpl.
  - left. eexists old, _, n, e, a, c. split; [done|]. split; [done|].
    split; [done|]. simpl. by rewrite Hb.
  - right. split; [by intros r [= <-]|by destruct db].
  - right. split; [|done]. intros r [= <-].
    by destruct (failed_write_not_2xx x "Failed to update student") as [->| ->].
Qed.

(** ** The table invariant *)

Lemma delete_student_students up sid db :
  students (store_after (delete_student up sid db)) = students db
  ∨ students (store_after (delete_student up sid db))
      = filter (λ r, row_id r ≠ sid) (students db).
Proof.
  unfold delete_student. destruct up; simpl; [|by left].
  destruct (length _); simpl; [by left | by right].
Qed.

Lemma create_student_preserves up now data db :
  store_ok db → store_ok (store_after (create_student up now data db)).
Proof.
  unfold store_ok. intros Hok.
  destruct (create_student_cases up now data db)
    as [(r & _ & _ & -> & Hn & Hid & Hem)|[_ ->]]; [|done].
  apply table_ok_snoc; [done | done | by apply has_id_free | done].
Qed.

Lemma update_student_preserves up sid data db :
  store_ok db → store_ok (store_after (update_student up sid data db)).
Proof.
  unfold store_ok. intros Hok.
  destruct (update_student_cases up sid data db)
    as [(old & new & n & e & a & c & _ & -> & Hhit & Hid & _ & _ & _ & Hn & Hem)
       |[_ ->]]; [|done].
  simpl. apply table_ok_snoc; [by apply table_ok_filter | done | | done].
  assert (old ∈ filter (λ r, row_id r = sid) (students db)) as Hold
    by (rewrite Hhit; left).
  apply list_elem_of_filter in Hold as [Hold _].
  rewrite Hid, Hold. intros Hin.
  apply list_elem_of_fmap in Hin as (r & Hr & Hin).
  by apply list_elem_of_filter in Hin as [Hne _].
Qed.

Lemma delete_student_preserves up sid db :
  store_ok db → store_ok (store_after (delete_student up sid db)).
Proof.
  unfold store_ok. intros Hok.
  destruct (delete_student_students up sid db) as [-> | ->]; [done|].
  by apply table_ok_filter.
Qed.

Lemma app_preserves up now req db :
  store_ok db → store_ok (store_after (app up now req db)).
Proof.
  intros Hok. destruct req; simpl.
  - done.
  - unfold get_students. by destruct up.
  - unfold get_student. by destruct up.
  - by apply create_student_preserves.
  - by apply update_student_preserves.
  - by apply delete_student_preserves.
Qed.

Lemma reachable_store_ok db : reachable db → store_ok db.
Proof.
  induction 1 as [|up now req db _ IH].
  - apply table_ok_nil.
  - by apply app_preserves.
Qed.

(** C7. In every store state that the service can reach from the freshly
    initialised table, the ids of the stored students are pairwise distinct,
    so are their emails, and no stored student has a null name, email, age
    or course; and each of create, update and delete, on any input, takes a
    store with these three properties to a store with them. *)
Theorem store_invariant (db : store) :
  (reachable db → store_ok db)
  ∧
  (store_ok db →
     ∀ up now sid data,
       store_ok (store_after (create_student up now data db))
       ∧ store_ok (store_after (update_student up sid data db))
       ∧ store_ok (store_after (delete_student up sid db))).
Proof.
  split; [apply reachable_store_ok|].
  intros Hok up now sid data. split; [|split].
  - by apply create_student_preserves.
  - by apply update_student_preserves.
  - by apply delete_student_preserves.
Qed.

(** ** Listing *)

#[local] Instance id_le_total : Total id_le.
Proof. intros r1 r2. unfold id_le. lia. Qed.

#[local] Instance id_le_trans : Transitive id_le.
Proof. intros r1 r2 r3. unfold id_le. lia. Qed.

Lemma sorted_distinct_ids (l : list row) :
  StronglySorted id_le l → NoDup (row_id <$> l) → StronglySorted id_lt l.
Proof.
  induction 1 as [|r l Hl IH Hr]; [constructor|].
  rewrite fmap_cons, NoDup_cons. intros [Hnotin Hnd].
  constructor; [by apply IH|].
  apply Forall_forall. intros r' Hr'.
  pose proof (proj1 (Forall_forall _ _) Hr r' Hr') as Hle.
  unfold id_le in Hle. unfold id_lt.
  assert (row_id r ≠ row_id r'); [|lia].
  intros Heq. apply Hnotin. rewrite Heq.
  apply list_elem_of_fmap. by exists r'.
Qed.

Lemma create_all_created reqs db :
  store_ok db →
  Forall created (create_all reqs db).1 →
  store_ok (create_all reqs db).2
  ∧ length (students (create_all reqs db).2)
      = (length (students db) + length reqs)%nat.
Proof.
  revert db. induction reqs as [|[[up now] data] reqs IH]; intros db Hok; simpl.
  - intros _. split; [done|lia].
  - intros Hall. apply Forall_cons in Hall as [(r & Hout & Hst) Hall].
    pose proof (create_student_preserves up now data db Hok) as Hok'.
    destruct (IH _ Hok' Hall) as [Hok'' Hlen].
    split; [done|]. rewrite Hlen.
    destruct (create_student_cases up now data db)
      as [(r' & _ & _ & -> & _)|[Hne _]].
    + rewrite length_app. simpl. lia.
    + by destruct (Hne r Hout).
Qed.

Lemma create_params_dict (d : gmap string scalar) n e a c :
  create_params (PDict d) = inr (n, e, a, c) →
  d !! "name" = Some n ∧ d !! "email" = Some e ∧
  d !! "age" = Some a ∧ d !! "course" = Some c.
Proof.
  unfold create_params, py_getitem.
  destruct (d !! "name"), (d !! "email"), (d !! "age"), (d !! "course");
    try done.
  by intros [= -> -> -> ->].
Qed.

Lemma has_id_above i (rs : list row) :
  Forall (λ r, row_id r < i) rs → existsb (has_id i) rs = false.
Proof.
  induction 1 as [|r rs Hr _ IH]; [done|].
  simpl. rewrite IH. unfold has_id.
  rewrite bool_decide_eq_false_2; [done|lia].
Qed.

Lemma email_taken_snoc e (rs : list row) r :
  email_taken (Some e) (rs ++ [r])
    = email_taken (Some e) rs || bool_decide (row_email r = Some e).
Proof. simpl. rewrite existsb_app. simpl. by rewrite orb_false_r. Qed.

(** A create request with acceptable values and a fresh email is stored,
    while the sequence lasts. *)
Lemma create_student_acceptable now d em db :
  acceptable d em →
  students_id_seq db ≤ INT4_MAX →
  Forall (λ r, row_id r < students_id_seq db) (students db) →
  email_taken (Some em) (students db) = false →
  ∃ r,
    create_student true now (PDict d) db
      = {| out := Returned (mk_response (JObject (row_json r)) 201);
           store_after := {| students := students db ++ [r];
                             students_id_seq := students_id_seq db + 1 |};
           trace := [Connect; Execute Insert; Commit; Close] |}
    ∧ row_id r = students_id_seq db
    ∧ row_email r = Some em.
Proof.
  intros (n & e & a & c & n' & a' & c' & Hp & Hb) Hseq Hids Hem.
  pose proof (create_params_dict d n e a c Hp) as (Hn & He & Ha & Hc).
  assert (missing_field required_fields (PDict d) = inr None) as Hv.
  { apply missing_field_present. unfold required_fields.
    repeat (apply Forall_cons; split; [by eexists|]). by apply Forall_nil. }
  unfold create_student. rewrite Hv. simpl get_db_connection. cbv iota.
  rewrite Hp. unfold exec_insert. rewrite Hb. unfold nextval.
  simpl durable. rewrite bool_decide_eq_true_2 by done.
  unfold null_column; simpl row_name; simpl row_email; simpl row_age;
    simpl row_course; cbv iota.
  simpl pending. rewrite (has_id_above _ _ Hids), Hem.
  eexists. split; [done|]. done.
Qed.

Lemma create_all_valid reqs emails db :
  Forall2 valid_create reqs emails →
  NoDup emails →
  Forall (λ e, email_taken (Some e) (students db) = false) emails →
  Forall (λ r, row_id r < students_id_seq db) (students db) →
  students_id_seq db + Z.of_nat (length reqs) ≤ INT4_MAX + 1 →
  Forall created (create_all reqs db).1.
Proof.
  intros H. revert db.
  induction H as [|[[up now] data] em reqs emails (Hup & d & Hd & Hacc) _ IH];
    intros db Hnd Hfree Hids Hseq; [by constructor|].
  simpl in Hup, Hd. subst up data.
  apply NoDup_cons in Hnd as [Hnotin Hnd].
  apply Forall_cons in Hfree as [Hem Hfree].
  simpl length in Hseq.
  destruct (create_student_acceptable now d em db Hacc) as (r & Hres & Hid & Hmail);
    [lia | done | done |].
  cbn [create_all fst snd]. rewrite Hres. cbn [out store_after].
  constructor; [by eexists|].
  apply IH; [done| | |simpl; lia].
  - apply Forall_forall. intros e He. simpl students.
    rewrite email_taken_snoc.
    rewrite (proj1 (Forall_forall _ _) Hfree e He). simpl.
    apply bool_decide_eq_false. rewrite Hmail. intros [= ->]. done.
  - simpl. apply Forall_app. split.
    + eapply Forall_impl; [exact Hids|]. simpl. intros; lia.
    + apply Forall_singleton. lia.
Qed.

(** C5. The list operation answers 200 with all stored students, each once,
    in ascending order of id; when N create requests served one after the
    other on the freshly initialised table have each stored a student
    (201), the list has exactly N records, in strictly ascending order of
    id, with pairwise distinct emails; and N create requests with acceptable
    values and pairwise distinct emails do each store a student, as long as
    N is within the range of the id sequence. *)
Theorem get_students_all_by_ascending_id :
  (∀ db, ∃ l,
     out (get_students true db)
       = Returned (mk_response (JArray (row_json <$> l)) 200)
     ∧ l ≡ₚ students db
     ∧ StronglySorted id_le l)
  ∧
  (∀ reqs,
     Forall created (create_all reqs (init_db None)).1 →
     ∃ l,
       out (get_students true (create_all reqs (init_db None)).2)
         = Returned (mk_response (JArray (row_json <$> l)) 200)
       ∧ l ≡ₚ students (create_all reqs (init_db None)).2
       ∧ length (row_json <$> l) = length reqs
       ∧ StronglySorted id_lt l
       ∧ NoDup (row_email <$> l))
  ∧
  (∀ reqs emails,
     Forall2 valid_create reqs emails →
     NoDup emails →
     Z.of_nat (length reqs) ≤ INT4_MAX →
     Forall created (create_all reqs (init_db None)).1).
Proof.
  split; [|split].
  - intros db. exists (merge_sort id_le (students db)).
    split; [done|]. split; [apply merge_sort_Permutation|].
    apply StronglySorted_merge_sort; apply _.
  - intros reqs Hall.
    destruct (create_all_created reqs (init_db None) table_ok_nil Hall)
      as [[Hids Hemails _] Hlen].
    set (db := (create_all reqs (init_db None)).2) in *.
    pose proof (merge_sort_Permutation id_le (students db)) as Hperm.
    exists (merge_sort id_le (students db)).
    split; [done|]. split; [done|]. split; [|split].
    + rewrite length_fmap, Hperm, Hlen. done.
    + apply sorted_distinct_ids.
      * apply StronglySorted_merge_sort; apply _.
      * by rewrite Hperm.
    + by rewrite Hperm.
  - intros reqs emails Hvalid Hnd Hlen.
    apply (create_all_valid reqs emails); [done | done | | by constructor |].
    + apply Forall_forall. by intros e _.
    + simpl. unfold INT4_MAX in *. lia.
Qed.

(** ** Integrity violations on update *)

Lemma select_by_id_known sid db :
  Exists (λ r, row_id r = sid) (students db) →
  ∃ r, select_by_id sid (connect db) = Some r ∧ r ∈ students db ∧ row_id r = sid.
Proof.
  intros H. apply Exists_id_eq in H as (r & Hin & Hid).
  unfold select_by_id, connect; simpl.
  destruct (List.find (has_id sid) (students db)) as [r'|] eqn:Hfind.
  - exists r'. split; [done|]. by apply find_has_id_Some.
  - exfalso. by apply (proj1 (find_has_id_None _ _) Hfind r).
Qed.

Lemma update_params_dict d :
  update_params (PDict d)
    = inr (default SNull (d !! "name"), default SNull (d !! "email"),
           default SNull (d !! "age"), default SNull (d !! "course")).
Proof. done. Qed.

Lemma bind_columns_inr n e a c n' e' a' c' :
  bind_columns n e a c = inr (n', e', a', c') →
  to_varchar n = inr n' ∧ to_varchar e = inr e' ∧
  to_integer a = inr a' ∧ to_varchar c = inr c'.
Proof.
  unfold bind_columns.
  destruct (to_varchar n), (to_varchar e), (to_integer a), (to_varchar c);
    try done.
  by intros [= -> -> -> ->].
Qed.

(** A required field that the object lacks reaches the statement as NULL. *)
Lemma omitted_field_null (d : gmap string scalar) n' e' a' c' :
  (∃ f, f ∈ required_fields ∧ d !! f = None) →
  bind_columns (default SNull (d !! "name")) (default SNull (d !! "email"))
    (default SNull (d !! "age")) (default SNull (d !! "course"))
    = inr (n', e', a', c') →
  n' = None ∨ e' = None ∨ a' = None ∨ c' = None.
Proof.
  intros (f & Hin & Hf) Hb.
  apply bind_columns_inr in Hb as (Hn & He & Ha & Hc).
  unfold required_fields in Hin.
  repeat (apply elem_of_cons in Hin as [->|Hin]);
    [| | | |by apply elem_of_nil in Hin];
    rewrite Hf in *; simpl in *; naive_solver.
Qed.

Lemma update_student_statement sid d db :
  Exists (λ r, row_id r = sid) (students db) →
  update_student true sid (PDict d) db
    = match exec_update (default SNull (d !! "name"))
              (default SNull (d !! "email")) (default SNull (d !! "age"))
              (default SNull (d !! "course")) sid (connect db) with
      | (inr (Some updated_student), conn') =>
          {| out := Returned
                      (mk_response (JObject (row_json updated_student)) 200);
             store_after := close (commit conn');
             trace := [Connect; Execute SelectById; Execute Update;
                       Commit; Close] |}
      | (inr None, conn') =>
          {| out := Returned (failed_write TypeError "Failed to update student");
             store_after := close (rollback (commit conn'));
             trace := [Connect; Execute SelectById; Execute Update;
                       Commit; Rollback; Close] |}
      | (inl x, conn') =>
          {| out := Returned (failed_write x "Failed to update student");
             store_after := close (rollback conn');
             trace := [Connect; Execute SelectById; Execute Update;
                       Rollback; Close] |}
      end.
Proof.
  intros H. destruct (select_by_id_known _ _ H) as (r & Hsel & _).
  unfold update_student, get_db_connection. rewrite Hsel.
  by rewrite update_params_dict.
Qed.

Lemma exec_update_error_conn n e a c sid conn x conn' :
  exec_update n e a c sid conn = (inl x, conn') → conn' = conn.
Proof.
  intros H.
  destruct (exec_update_cases n e a c sid conn)
    as [(old & n' & e' & a' & c' & Hex & _)|[[Hex _]|[y Hex]]];
    simpl in Hex; rewrite Hex in H; congruence.
Qed.

Lemma update_integrity_rejected sid (d : gmap string scalar) db v conn' :
  Exists (λ r, row_id r = sid) (students db) →
  exec_update (default SNull (d !! "name")) (default SNull (d !! "email"))
    (default SNull (d !! "age")) (default SNull (d !! "course")) sid (connect db)
    = (inl (DatabaseError (IntegrityError v)), conn') →
  update_student true sid (PDict d) db
    = {| out := Returned (mk_response (error_body "Email already exists") 409);
         store_after := db;
         trace := [Connect; Execute SelectById; Execute Update; Rollback; Close]
      |}.
Proof.
  intros Hex Hup. rewrite (update_student_statement _ _ _ Hex), Hup.
  apply exec_update_error_conn in Hup as ->. done.
Qed.

Lemma update_omitted_not_null sid (d : gmap string scalar) db :
  Exists (λ r, row_id r = sid) (students db) →
  (∃ f, f ∈ required_fields ∧ d !! f = None) →
  (∃ cols,
     bind_columns (default SNull (d !! "name")) (default SNull (d !! "email"))
       (default SNull (d !! "age")) (default SNull (d !! "course")) = inr cols) →
  ∃ col,
    exec_update (default SNull (d !! "name")) (default SNull (d !! "email"))
      (default SNull (d !! "age")) (default SNull (d !! "course")) sid
      (connect db)
    = (inl (DatabaseError (IntegrityError (NotNullViolation col))), connect db).
Proof.
  intros Hex Hom [[[[n' e'] a'] c'] Hb].
  destruct (select_by_id_known _ _ Hex) as (r & _ & Hin & Hid).
  pose proof (filter_id_some sid _ r Hin Hid) as Hhit.
  pose proof (omitted_field_null d n' e' a' c' Hom Hb) as Hnull.
  unfold exec_update. rewrite Hb. simpl pending.
  destruct (filter (λ r0, row_id r0 = sid) (students db)) as [|old more];
    [done|].
  unfold null_column; simpl.
  destruct n', e', a', c'; try (by eexists).
  by destruct Hnull as [?|[?|[?|?]]].
Qed.

Lemma update_duplicate_email sid (d : gmap string scalar) db n' e' a' c' other :
  Exists (λ r, row_id r = sid) (students db) →
  bind_columns (default SNull (d !! "name")) (default SNull (d !! "email"))
    (default SNull (d !! "age")) (default SNull (d !! "course"))
    = inr (Some n', Some e', Some a', Some c') →
  other ∈ students db → row_id other ≠ sid → row_email other = Some e' →
  exec_update (default SNull (d !! "name")) (default SNull (d !! "email"))
    (default SNull (d !! "age")) (default SNull (d !! "course")) sid (connect db)
  = (inl (DatabaseError (IntegrityError (UniqueViolation "students_email_key"))),
     connect db).
Proof.
  intros Hex Hb Hother Hne Hem.
  destruct (select_by_id_known _ _ Hex) as (r & _ & Hin & Hid).
  pose proof (filter_id_some sid _ r Hin Hid) as Hhit.
  unfold exec_update. rewrite Hb. simpl pending.
  destruct (filter (λ r0, row_id r0 = sid) (students db)) as [|old more];
    [done|].
  unfold null_column; simpl row_name; simpl row_email; simpl row_age;
    simpl row_course; cbv iota.
  rewrite (email_taken_elem e' _ other); [done| |done].
  by apply list_elem_of_filter.
Qed.

(** C9. For an update of an existing row with an object payload: whenever
    the UPDATE statement raises an integrity violation of any kind, the
    answer is 409 "Email already exists", after a rollback, with the store
    as it was. A not-null violation is what the statement raises when a
    required field is omitted from the payload and the values bound to the
    columns are accepted by the column types; a unique violation is what it
    raises when no bound value is null and the email is that of another
    row. *)
Theorem update_integrity_violation_409
  (sid : Z) (d : gmap string scalar) (db : store) :
  Exists (λ r, row_id r = sid) (students db) →
  let n := default SNull (d !! "name") in
  let e := default SNull (d !! "email") in
  let a := default SNull (d !! "age") in
  let c := default SNull (d !! "course") in
  let rejected :=
    {| out := Returned (mk_response (error_body "Email already exists") 409);
       store_after := db;
       trace := [Connect; Execute SelectById; Execute Update; Rollback; Close]
    |} in
  (∀ v conn',
     exec_update n e a c sid (connect db)
       = (inl (DatabaseError (IntegrityError v)), conn') →
     update_student true sid (PDict d) db = rejected)
  ∧
  ((∃ f, f ∈ required_fields ∧ d !! f = None) →
   (∃ cols, bind_columns n e a c = inr cols) →
     (∃ col, exec_update n e a c sid (connect db)
        = (inl (DatabaseError (IntegrityError (NotNullViolation col))),
           connect db))
     ∧ update_student true sid (PDict d) db = rejected)
  ∧
  (∀ n' e' a' c' other,
     bind_columns n e a c = inr (Some n', Some e', Some a', Some c') →
     other ∈ students db → row_id other ≠ sid → row_email other = Some e' →
     exec_update n e a c sid (connect db)
       = (inl (DatabaseError
                 (IntegrityError (UniqueViolation "students_email_key"))),
          connect db)
     ∧ update_student true sid (PDict d) db = rejected).
Proof.
  intros Hex n e a c rejected. split; [|split].
  - intros v conn' Hup. by eapply update_integrity_rejected.
  - intros Hom Hb.
    destruct (update_omitted_not_null sid d db Hex Hom Hb) as [col Hcol].
    split; [by exists col|]. by eapply update_integrity_rejected.
  - intros n' e' a' c' other Hb Hother Hne Hem.
    pose proof (update_duplicate_email sid d db _ _ _ _ _ Hex Hb Hother Hne Hem)
      as Huniq.
    split; [done|]. by eapply update_integrity_rejected.
Qed.

(** ** Update of an existing row *)

Lemma filter_id_unique sid (rs : list row) r :
  NoDup (row_id <$> rs) → r ∈ rs → row_id r = sid →
  filter (λ r, row_id r = sid) rs = [r].
Proof.
  induction rs as [|x rs IH]; intros Hnd Hin Hid.
  - by apply elem_of_nil in Hin.
  - rewrite fmap_cons, NoDup_cons in Hnd. destruct Hnd as [Hx Hnd].
    rewrite filter_cons. apply elem_of_cons in Hin as [<-|Hin].
    + rewrite decide_True by done. f_equal.
      apply filter_id_none. intros r' Hr' Heq. apply Hx.
      rewrite Hid, <- Heq. apply list_elem_of_fmap. by exists r'.
    + rewrite decide_False; [by apply IH|].
      intros Heq. apply Hx. rewrite Heq, <- Hid.
      apply list_elem_of_fmap. by exists r.
Qed.

Lemma find_has_id_snoc sid (rs : list row) r :
  List.find (has_id sid) rs = None → row_id r = sid →
  List.find (has_id sid) (rs ++ [r]) = Some r.
Proof.
  intros Hnone Hid. induction rs as [|x rs IH]; simpl in *.
  - unfold has_id. by rewrite bool_decide_eq_true_2.
  - destruct (has_id sid x); [done|]. by apply IH.
Qed.

Lemma bind_columns_error n e a c x :
  bind_columns n e a c = inl x →
  ∀ other, failed_write x other = mk_response (error_body other) 500.
Proof.
  unfold bind_columns, to_varchar, to_integer, fit_varchar, fit_int4.
  intros H other.
  repeat (first [ case_match | case_bool_decide ]; simplify_eq/=; try done).
Qed.

(** C1, as the code has it. For an update of an existing row with an object
    payload, the statement is given all four fields, a present one from the
    payload and an omitted one as None, never the stored value. When the
    four values bound to the columns are non-null and accepted by the column
    types and the email is not that of another row, the row is replaced as
    a whole, with its id and creation time kept, and the answer is 200 with
    the updated record. When a required field is omitted, nothing is
    written: the answer is 409 if the other values are accepted by the
    column types and 500 if not, and the store is as it was. *)
Theorem update_student_replaces_or_rejects
  (sid : Z) (d : gmap string scalar) (db : store) :
  store_ok db →
  Exists (λ r, row_id r = sid) (students db) →
  let n := default SNull (d !! "name") in
  let e := default SNull (d !! "email") in
  let a := default SNull (d !! "age") in
  let c := default SNull (d !! "course") in
  update_params (PDict d) = inr (n, e, a, c)
  ∧
  (∀ old n' e' a' c',
     select_by_id sid (connect db) = Some old →
     bind_columns n e a c = inr (Some n', Some e', Some a', Some c') →
     email_taken (Some e') (filter (λ r, row_id r ≠ sid) (students db)) = false →
     let new :=
       mk_row sid (Some n') (Some e') (Some a') (Some c') (row_created_at old) in
     out (update_student true sid (PDict d) db)
       = Returned (mk_response (JObject (row_json new)) 200)
     ∧ students (store_after (update_student true sid (PDict d) db))
         = filter (λ r, row_id r ≠ sid) (students db) ++ [new]
     ∧ select_by_id sid (connect (store_after (update_student true sid (PDict d) db)))
         = Some new)
  ∧
  ((∃ f, f ∈ required_fields ∧ d !! f = None) →
     store_after (update_student true sid (PDict d) db) = db
     ∧ ((∃ cols, bind_columns n e a c = inr cols) →
          out (update_student true sid (PDict d) db)
            = Returned (mk_response (error_body "Email already exists") 409))
     ∧ ((∃ x, bind_columns n e a c = inl x) →
          out (update_student true sid (PDict d) db)
            = Returned (mk_response (error_body "Failed to update student") 500))).
Proof.
  intros [Hids _ _] Hex n e a c. split; [done|]. split.
  - intros old n' e' a' c' Hsel Hb Hem new.
    apply find_has_id_Some in Hsel as [Hin Hid].
    rewrite (update_student_statement _ _ _ Hex). fold n e a c.
    unfold exec_update. rewrite Hb. simpl pending.
    rewrite (filter_id_unique sid _ old Hids Hin Hid).
    unfold null_column; simpl row_name; simpl row_email; simpl row_age;
      simpl row_course; cbv iota.
    rewrite Hem. rewrite bool_decide_eq_false_2 by (by intros H). simpl.
    rewrite Hid. fold new. split; [done|]. split; [done|].
    unfold select_by_id. simpl.
    apply find_has_id_snoc; [apply find_filter_out | done].
  - intros Hom.
    destruct (bind_columns n e a c) as [x|cols] eqn:Hb.
    + assert (update_student true sid (PDict d) db
        = {| out := Returned (mk_response (error_body "Failed to update student") 500);
             store_after := db;
             trace := [Connect; Execute SelectById; Execute Update;
                       Rollback; Close] |}) as ->.
      { rewrite (update_student_statement _ _ _ Hex). fold n e a c.
        unfold exec_update. rewrite Hb. simpl.
        by rewrite (bind_columns_error _ _ _ _ _ Hb). }
      simpl. split; [done|]. split; [by intros [? ?]|done].
    + destruct (update_omitted_not_null sid d db Hex Hom) as [col Hcol];
        [by exists cols|].
      rewrite (update_integrity_rejected _ _ _ _ _ Hex Hcol). simpl.
      split; [done|]. split; [done|by intros [? ?]].
Qed.

(** ** Duplicate emails on create *)

Lemma failed_write_cases x other :
  failed_write x other = mk_response (error_body "Email already exists") 409
  ∨ failed_write x other = mk_response (error_body other) 500.
Proof. unfold failed_write. destruct x as [| | | |[]]; auto. Qed.

Lemma create_student_created up now data db :
  created (out (create_student up now data db)) →
  ∃ r n e a c,
    create_params data = inr (n, e, a, c)
    ∧ bind_columns n e a c
        = inr (row_name r, row_email r, row_age r, row_course r)
    ∧ out (create_student up now data db)
        = Returned (mk_response (JObject (row_json r)) 201)
    ∧ store_after (create_student up now data db)
        = {| students := students db ++ [r];
             students_id_seq := students_id_seq db + 1 |}
    ∧ row_id r = students_id_seq db
    ∧ row_created_at r = Some now
    ∧ null_column r = None
    ∧ email_taken (row_email r) (students db) = false.
Proof.
  unfold create_student, created.
  destruct (missing_field required_fields data) as [x|[f|]]; simpl;
    [by intros (r & ? & ?) | by intros (r & [= <-] & ?) |].
  destruct up; simpl; [|by intros (r & [= <-] & ?)].
  destruct (create_params data) as [x|[[[n e] a] c]]; simpl.
  { intros (r & [= <-] & Hst).
    by destruct (failed_write_not_2xx x "Failed to create student") as [H|H];
      rewrite H in Hst. }
  destruct (exec_insert_cases n e a c now (connect db))
    as [(r & -> & Hid & Hat & Hb & Hn & _ & Hem)|(x & conn' & -> & Hst)]; simpl.
  - intros _. exists r, n, e, a, c. rewrite Hid. done.
  - intros (r & [= <-] & Hst').
    by destruct (failed_write_not_2xx x "Failed to create student") as [H|H];
      rewrite H in Hst'.
Qed.

Lemma create_params_present (d : gmap string scalar) :
  Forall (λ g, is_Some (d !! g)) required_fields →
  ∃ n e a c,
    create_params (PDict d) = inr (n, e, a, c)
    ∧ d !! "name" = Some n ∧ d !! "email" = Some e
    ∧ d !! "age" = Some a ∧ d !! "course" = Some c.
Proof.
  unfold required_fields. intros H.
  apply Forall_cons in H as [[n Hn] H]. apply Forall_cons in H as [[e He] H].
  apply Forall_cons in H as [[a Ha] H]. apply Forall_cons in H as [[c Hc] _].
  exists n, e, a, c. unfold create_params, py_getitem.
  by rewrite Hn, He, Ha, Hc.
Qed.

Lemma email_not_taken_filter e (rs : list row) :
  email_taken (Some e) rs = false →
  filter (λ r, row_email r = Some e) rs = [].
Proof.
  intros H. induction rs as [|x rs IH]; [done|].
  simpl in H. apply orb_false_iff in H as [Hx H].
  apply bool_decide_eq_false in Hx.
  rewrite filter_cons, decide_False by done. by apply IH.
Qed.

(** An INSERT whose email is that of a stored row cannot succeed, and once
    its parameters are bound and an id is drawn, what it raises is an
    integrity violation. *)
Lemma exec_insert_email_taken n e a c now conn em :
  to_varchar e = inr (Some em) →
  email_taken (Some em) (pending conn) = true →
  ∃ x conn',
    exec_insert n e a c now conn = (inl x, conn')
    ∧ students (durable conn') = students (durable conn)
    ∧ ((∃ cols, bind_columns n e a c = inr cols) →
       students_id_seq (durable conn) ≤ INT4_MAX →
       ∃ v, x = DatabaseError (IntegrityError v)).
Proof.
  intros He Htaken. unfold exec_insert.
  destruct (bind_columns n e a c) as [x|[[[n' e'] a'] c']] eqn:Hb.
  { eexists _, _. split; [done|]. split; [done|]. by intros [? ?]. }
  apply bind_columns_inr in Hb as (_ & He' & _ & _).
  rewrite He in He'. injection He' as <-.
  unfold nextval. case_bool_decide as Hseq.
  2:{ eexists _, _. split; [done|]. split; [done|]. intros _ ?. lia. }
  destruct (null_column _) eqn:Hn.
  { eexists _, _. split; [done|]. split; [done|]. intros _ _. by eexists. }
  simpl pending.
  destruct (existsb _ (pending conn)).
  { eexists _, _. split; [done|]. split; [done|]. intros _ _. by eexists. }
  rewrite Htaken.
  eexists _, _. split; [done|]. split; [done|]. intros _ _. by eexists.
Qed.

(** An INSERT with a parameter that its column type rejects, or sent when
    the sequence is exhausted, raises an error that is not an integrity
    violation. *)
Lemma exec_insert_other_error n e a c now conn :
  (∃ x, bind_columns n e a c = inl x)
  ∨ INT4_MAX < students_id_seq (durable conn) →
  ∃ y,
    (exec_insert n e a c now conn).1 = inl y
    ∧ ∀ other, failed_write y other = mk_response (error_body other) 500.
Proof.
  intros H. unfold exec_insert.
  destruct (bind_columns n e a c) as [x|[[[n' e'] a'] c']] eqn:Hb.
  - exists x. split; [done|]. by eapply bind_columns_error.
  - destruct H as [[x Hx]|Hseq]; [done|].
    unfold nextval. rewrite bool_decide_eq_false_2 by lia.
    by eexists.
Qed.

(** C2, as the code has it. When a create request has stored a student and
    a second create request, with the four keys present, gives the same
    email, the second one never stores anything: it is answered 409
    "Email already exists" when its name, age and course are accepted by
    the column types and the id sequence is not exhausted, and 500
    otherwise; either way the INSERT is rolled back before the connection
    is closed, the table is as the first request left it, and it holds
    exactly one row with that email. *)
Theorem create_duplicate_email_rejected
  (up : bool) (now1 now2 : Z) (d1 d2 : gmap string scalar) (v : scalar)
  (db : store) :
  d1 !! "email" = Some v →
  d2 !! "email" = Some v →
  Forall (λ g, is_Some (d2 !! g)) required_fields →
  created (out (create_student up now1 (PDict d1) db)) →
  let db1 := store_after (create_student up now1 (PDict d1) db) in
  let second := create_student true now2 (PDict d2) db1 in
  ∃ em,
    to_varchar v = inr (Some em)
    ∧ (out second
         = Returned (mk_response (error_body "Email already exists") 409)
       ∨ out second
         = Returned (mk_response (error_body "Failed to create student") 500))
    ∧ ((∃ n e a c cols,
          create_params (PDict d2) = inr (n, e, a, c)
          ∧ bind_columns n e a c = inr cols) →
       students_id_seq db1 ≤ INT4_MAX →
       out second
         = Returned (mk_response (error_body "Email already exists") 409))
    ∧ (((∃ n e a c x,
           create_params (PDict d2) = inr (n, e, a, c)
           ∧ bind_columns n e a c = inl x)
        ∨ INT4_MAX < students_id_seq db1) →
       out second
         = Returned (mk_response (error_body "Failed to create student") 500))
    ∧ trace second = [Connect; Execute Insert; Rollback; Close]
    ∧ students (store_after second) = students db1
    ∧ length (filter (λ r, row_email r = Some em) (students (store_after second)))
        = 1%nat.
Proof.
  intros Hv1 Hv2 Hpresent Hcreated db1 second.
  destruct (create_student_created _ _ _ _ Hcreated)
    as (r & n & e & a & c & Hp & Hb & _ & Hafter & _ & _ & Hn & Hem).
  apply create_params_dict in Hp as (_ & He & _ & _).
  rewrite Hv1 in He. injection He as <-.
  apply bind_columns_inr in Hb as (_ & Hmail & _ & _).
  apply null_column_complete in Hn as (_ & [em Heq] & _ & _).
  rewrite Heq in Hmail, Hem. exists em. split; [done|].
  assert (students db1 = students db ++ [r]) as Hrows
    by (unfold db1; by rewrite Hafter).
  assert (email_taken (Some em) (students db1) = true) as Htaken.
  { apply (email_taken_elem em _ r); [|done]. rewrite Hrows. set_solver. }
  destruct (create_params_present d2 Hpresent)
    as (n2 & e2 & a2 & c2 & Hp2 & _ & He2 & _ & _).
  rewrite Hv2 in He2. injection He2 as <-.
  destruct (exec_insert_email_taken n2 v a2 c2 now2 (connect db1) em Hmail Htaken)
    as (x & conn' & Hins & Hsame & Hkind).
  assert (second
    = {| out := Returned (failed_write x "Failed to create student");
         store_after := close (rollback conn');
         trace := [Connect; Execute Insert; Rollback; Close] |}) as Hsecond.
  { unfold second, create_student.
    rewrite (missing_field_present _ _ Hpresent). simpl.
    by rewrite Hp2, Hins. }
  rewrite Hsecond. simpl.
  split; [|split; [|split; [|split; [done|split; [done|]]]]].
  - destruct (failed_write_cases x "Failed to create student") as [-> | ->]; auto.
  - intros (n' & e' & a' & c' & cols & Hp' & Hb') Hseq.
    rewrite Hp2 in Hp'. injection Hp' as <- <- <- <-.
    destruct Hkind as [w ->]; [by exists cols | done | done].
  - intros Hother.
    destruct (exec_insert_other_error n2 v a2 c2 now2 (connect db1))
      as (y & Hy & H500).
    { destruct Hother as [(n' & e' & a' & c' & y & Hp' & Hb')|Hseq];
        [|by right].
      rewrite Hp2 in Hp'. injection Hp' as <- <- <- <-. left. by exists y. }
    rewrite Hins in Hy. simpl in Hy. injection Hy as <-.
    by rewrite H500.
  - rewrite Hsame. simpl. rewrite Hrows, filter_app.
    rewrite (email_not_taken_filter _ _ Hem). simpl.
    rewrite filter_cons, decide_True by done. done.
Qed.

(** ** Shape of the answers *)

Lemma well_shaped_ok b code :
  is_2xx code → has_key "error" b = false → well_shaped (mk_response b code).
Proof. intros H1 H2. split; simpl; [done|]. by intros []. Qed.

Lemma well_shaped_error msg code :
  ¬ is_2xx code → well_shaped (mk_response (error_body msg) code).
Proof. intros H. split; simpl; [by intros ?|done]. Qed.

Lemma well_shaped_failed_write x other : well_shaped (failed_write x other).
Proof.
  destruct (failed_write_cases x other) as [-> | ->];
    apply well_shaped_error; unfold is_2xx; lia.
Qed.

(** Every response that a view function returns has the documented shape:
    an [error] key exactly when the status is not 2xx. *)
Lemma app_returned_shape up now req db r :
  out (app up now req db) = Returned r → well_shaped r.
Proof.
  destruct req as [| |sid|data|sid data|sid]; simpl.
  - intros [= <-]. apply well_shaped_ok; [unfold is_2xx; simpl; lia|done].
  - unfold get_students. destruct up; simpl; intros [= <-].
    + apply well_shaped_ok; [unfold is_2xx; lia|done].
    + apply well_shaped_error. unfold is_2xx; lia.
  - unfold get_student. destruct up; simpl; intros [= <-].
    + destruct (select_by_id sid (connect db)).
      * apply well_shaped_ok; [unfold is_2xx; lia|done].
      * apply well_shaped_error. unfold is_2xx; lia.
    + apply well_shaped_error. unfold is_2xx; lia.
  - unfold create_student.
    destruct (missing_field required_fields data) as [x|[f|]]; simpl;
      [done | intros [= <-]; apply well_shaped_error; unfold is_2xx; lia |].
    destruct up; simpl;
      [|intros [= <-]; apply well_shaped_error; unfold is_2xx; lia].
    destruct (create_params data) as [x|[[[n e] a] c]]; simpl;
      [intros [= <-]; apply well_shaped_failed_write|].
    destruct (exec_insert n e a c now (connect db)) as [[x|new] conn']; simpl;
      intros [= <-]; [apply well_shaped_failed_write|].
    apply well_shaped_ok; [unfold is_2xx; lia|done].
  - unfold update_student.
    destruct up; simpl;
      [|intros [= <-]; apply well_shaped_error; unfold is_2xx; lia].
    destruct (select_by_id sid (connect db)) as [found|]; simpl;
      [|intros [= <-]; apply well_shaped_error; unfold is_2xx; lia].
    destruct (update_params data) as [x|[[[n e] a] c]]; simpl;
      [intros [= <-]; apply well_shaped_failed_write|].
    destruct (exec_update n e a c sid (connect db)) as [[x|[new|]] conn'];
      simpl; intros [= <-];
      [apply well_shaped_failed_write | | apply well_shaped_error; unfold is_2xx; lia].
    apply well_shaped_ok; [unfold is_2xx; lia|done].
  - unfold delete_student.
    destruct up; simpl;
      [|intros [= <-]; apply well_shaped_error; unfold is_2xx; lia].
    destruct (length _); simpl; intros [= <-].
    + apply well_shaped_error. unfold is_2xx; lia.
    + apply well_shaped_ok; [unfold is_2xx; lia|done].
Qed.

(** The only way out of a view function other than a response: the
    validation loop of [create_student] on a payload that is not a
    container. *)
Lemma app_raised up now req db x :
  out (app up now req db) = Raised x →
  x = TypeError ∧
  ∃ data, req = CreateStudent data ∧
    (data = PNone ∨ (∃ b, data = PBool b) ∨ (∃ n, data = PInt n)).
Proof.
  destruct req as [| |sid|data|sid data|sid]; simpl.
  - done.
  - unfold get_students. by destruct up.
  - unfold get_student. by destruct up.
  - intros H. assert (x = TypeError ∧
      (data = PNone ∨ (∃ b, data = PBool b) ∨ (∃ n, data = PInt n))) as [-> Hd];
      [|split; [done|by exists data]].
    revert H. unfold create_student.
    destruct (missing_field required_fields data) as [y|[f|]] eqn:Hm; simpl.
    + intros [= <-].
      destruct data; simpl in Hm; try (injection Hm as <-); eauto;
        exfalso; revert Hm; unfold required_fields, missing_field, py_contains;
        repeat case_match; done.
    + done.
    + destruct up; simpl; [|done].
      destruct (create_params data) as [y|[[[n e] a] c]]; simpl; [done|].
      by destruct (exec_insert n e a c now (connect db)) as [[y|new] conn'].
  - unfold update_student. destruct up; simpl; [|done].
    destruct (select_by_id sid (connect db)); simpl; [|done].
    destruct (update_params data) as [y|[[[n e] a] c]]; simpl; [done|].
    by destruct (exec_update n e a c sid (connect db)) as [[y|[new|]] conn'].
  - unfold delete_student. destruct up; simpl; [|done].
    by destruct (length _).
Qed.

(** C8, where the code departs from it. A create request whose body decodes
    to JSON null gets no response from the view function at all: the
    membership test of the validation loop raises TypeError before any
    [try] block is entered, whether the store can be reached or not, while
    the same payload sent to update_student for a stored id is answered
    with a JSON error object. *)
Theorem create_student_null_payload_raises (up : bool) (now : Z) (db : store) :
  create_student up now PNone db
    = {| out := Raised TypeError; store_after := db; trace := [] |}
  ∧ (¬ ∃ r, out (app up now (CreateStudent PNone) db) = Returned r)
  ∧ out (update_student true 1 PNone ann_store)
      = Returned (mk_response (error_body "Failed to update student") 500).
Proof.
  split; [done|]. split; [|by vm_compute].
  by intros [r Hr].
Qed.

(** ** The end-to-end scenario, evaluated *)

Lemma ann_store_rows :
  ann_store
    = {| students := [mk_row 1 (Some "Ann") (Some "ann@x.com") (Some 20)
                        (Some "CS") (Some 1000)];
         students_id_seq := 2 |}.
Proof. by vm_compute. Qed.

Lemma ann_store_has_1 : Exists (λ r, row_id r = 1) (students ann_store).
Proof. rewrite ann_store_rows. by left. Defined.

Lemma ann_store_lacks_999999 :
  Forall (λ r, row_id r ≠ 999999) (students ann_store).
Proof. rewrite ann_store_rows. by repeat constructor. Defined.

Lemma ann_created :
  created (out (create_student true 1000 (PDict ann) (init_db None))).
Proof. eexists. split; [by vm_compute | done]. Defined.

Lemma ann_all_present : Forall (λ g, is_Some (ann !! g)) required_fields.
Proof. all_present. Defined.

Lemma no_course_lacks_course :
  ∃ f, f ∈ required_fields ∧ no_course !! f = None.
Proof. exists "course"%string. split; [|by vm_compute]. set_solver. Defined.

Lemma name_only_lacks_email :
  ∃ f, f ∈ required_fields ∧ name_only !! f = None.
Proof. exists "email"%string. split; [|by vm_compute]. set_solver. Defined.

(** C1, refuted as stated: on the store of the scenario, the PUT of
    [{"name": "Ann B"}] to the stored id 1 is answered 409, not 200, and the
    row keeps its email, age and course. *)
Lemma update_name_only_answered_409 :
  Exists (λ r, row_id r = 1) (students ann_store)
  ∧ out (update_student true 1 (PDict name_only) ann_store)
      = Returned (mk_response (error_body "Email already exists") 409)
  ∧ store_after (update_student true 1 (PDict name_only) ann_store) = ann_store
  ∧ ¬ (∃ r, out (update_student true 1 (PDict name_only) ann_store) = Returned r
            ∧ status r = 200).
Proof.
  split; [exact ann_store_has_1|]. split; [by vm_compute|].
  split; [by vm_compute|]. intros (r & Hr & Hst).
  vm_compute in Hr. injection Hr as <-. done.
Qed.

Lemma update_student_replaces_or_rejects_witness :
  store_ok ann_store
  ∧ Exists (λ r, row_id r = 1) (students ann_store)
  ∧ (∃ f, f ∈ required_fields ∧ name_only !! f = None)
  ∧ store_after (update_student true 1 (PDict name_only) ann_store) = ann_store
  ∧ out (update_student true 1 (PDict cy) ann_store)
      = Returned
          (mk_response
             (JObject
                (row_json (mk_row 1 (Some "Cy") (Some "cy@x.com") (Some 31)
                             (Some "EE") (Some 1000)))) 200).
Proof.
  assert (store_ok ann_store) as Hok.
  { apply reachable_store_ok. apply (reachable_step true 1000 (CreateStudent (PDict ann))).
    apply reachable_init. }
  split; [exact Hok|]. split; [exact ann_store_has_1|].
  split; [exact name_only_lacks_email|].
  destruct (update_student_replaces_or_rejects 1 name_only ann_store Hok
              ann_store_has_1) as (_ & _ & Hrej).
  destruct (update_student_replaces_or_rejects 1 cy ann_store Hok
              ann_store_has_1) as (_ & Hacc & _).
  split; [exact (proj1 (Hrej name_only_lacks_email))|].
  refine (proj1 (Hacc (mk_row 1 (Some "Ann") (Some "ann@x.com") (Some 20)
                         (Some "CS") (Some 1000))
                   "Cy" "cy@x.com" 31 "EE" _ _ _))%string; by vm_compute.
Defined.

(** C2, refuted as stated: after Ann is stored, a create request with the
    four keys present and Ann's email but an age that is not a number is
    answered 500, not 409. *)
Lemma create_duplicate_email_bad_age_500 :
  ann !! "email" = bob !! "email"
  ∧ Forall (λ g, is_Some (bob !! g)) required_fields
  ∧ created (out (create_student true 1000 (PDict ann) (init_db None)))
  ∧ out (create_student true 2000 (PDict bob) ann_store)
      = Returned (mk_response (error_body "Failed to create student") 500)
  ∧ ¬ (∃ r, out (create_student true 2000 (PDict bob) ann_store) = Returned r
            ∧ status r = 409).
Proof.
  split; [by vm_compute|]. split; [all_present|].
  split; [exact ann_created|]. split; [by vm_compute|].
  intros (r & Hr & Hst). vm_compute in Hr. injection Hr as <-. done.
Qed.

Lemma bob_all_present : Forall (λ g, is_Some (bob !! g)) required_fields.
Proof. all_present. Defined.

Lemma bob_age_rejected :
  ∃ n e a c x,
    create_params (PDict bob) = inr (n, e, a, c)
    ∧ bind_columns n e a c = inl x.
Proof.
  exists (SStr "Bob"), (SStr "ann@x.com"), (SStr "twenty"), (SStr "CS"),
    (DatabaseError DataError).
  split; by vm_compute.
Defined.

Lemma create_duplicate_email_rejected_witness :
  ann !! "email" = Some (SStr "ann@x.com")
  ∧ bob !! "email" = Some (SStr "ann@x.com")
  ∧ Forall (λ g, is_Some (ann !! g)) required_fields
  ∧ Forall (λ g, is_Some (bob !! g)) required_fields
  ∧ created (out (create_student true 1000 (PDict ann) (init_db None)))
  ∧ (∃ n e a c x,
       create_params (PDict bob) = inr (n, e, a, c)
       ∧ bind_columns n e a c = inl x)
  ∧ out (create_student true 2000 (PDict bob) ann_store)
      = Returned (mk_response (error_body "Failed to create student") 500)
  ∧ ∃ em,
      to_varchar (SStr "ann@x.com") = inr (Some em)
      ∧ trace (create_student true 2000 (PDict ann) ann_store)
          = [Connect; Execute Insert; Rollback; Close]
      ∧ students (store_after (create_student true 2000 (PDict ann) ann_store))
          = students ann_store
      ∧ length (filter (λ r, row_email r = Some em)
                  (students
                     (store_after (create_student true 2000 (PDict ann) ann_store))))
          = 1%nat.
Proof.
  assert (ann !! "email" = Some (SStr "ann@x.com")) as He by (by vm_compute).
  assert (bob !! "email" = Some (SStr "ann@x.com")) as He' by (by vm_compute).
  split; [exact He|]. split; [exact He'|]. split; [exact ann_all_present|].
  split; [exact bob_all_present|]. split; [exact ann_created|].
  split; [exact bob_age_rejected|].
  destruct (create_duplicate_email_rejected true 1000 2000 ann bob
              (SStr "ann@x.com") (init_db None) He He' bob_all_present ann_created)
    as (_ & _ & _ & _ & H500 & _).
  split; [exact (H500 (or_introl bob_age_rejected))|].
  destruct (create_duplicate_email_rejected true 1000 2000 ann ann
              (SStr "ann@x.com") (init_db None) He He ann_all_present ann_created)
    as (em & Hem & _ & _ & _ & Htrace & Hrows & Hone).
  exists em. done.
Defined.

Lemma create_student_missing_field_400_witness :
  (∃ f, f ∈ required_fields ∧ no_course !! f = None)
  ∧ Forall (λ g, is_Some (ann !! g)) required_fields
  ∧ (∃ f, first_absent f no_course ∧
       out (create_student true 3000 (PDict no_course) ann_store)
         = Returned
             (mk_response (error_body ("Missing required field: " +:+ f)) 400))
  ∧ missing_field required_fields (PDict ann) = inr None.
Proof.
  split; [exact no_course_lacks_course|]. split; [exact ann_all_present|].
  split.
  - exact (proj1 (create_student_missing_field_400 true 3000 no_course ann_store)
             no_course_lacks_course).
  - exact (proj1 (proj2 (create_student_missing_field_400 true 3000 ann ann_store)
                    ann_all_present)).
Defined.

Lemma update_unknown_id_404_witness :
  Forall (λ r, row_id r ≠ 999999) (students ann_store)
  ∧ out (update_student true 999999 (PDict name_only) ann_store)
      = Returned (mk_response (error_body "Student not found") 404)
  ∧ store_after (update_student true 999999 (PDict name_only) ann_store)
      = ann_store.
Proof.
  split; [exact ann_store_lacks_999999|].
  exact (update_unknown_id_404 999999 (PDict name_only) ann_store
           ann_store_lacks_999999).
Defined.

Lemma ann_cy_valid :
  Forall2 valid_create [(true, 1000, PDict ann); (true, 2000, PDict cy)]
    ["ann@x.com"; "cy@x.com"]%string.
Proof.
  apply List.Forall2_cons; [|apply List.Forall2_cons; [|apply List.Forall2_nil]].
  - split; [reflexivity|]. exists ann. split; [reflexivity|].
    exists (SStr "Ann"), (SStr "ann@x.com"), (SInt 20), (SStr "CS"),
      "Ann"%string, 20, "CS"%string.
    split; by vm_compute.
  - split; [reflexivity|]. exists cy. split; [reflexivity|].
    exists (SStr "Cy"), (SStr "cy@x.com"), (SInt 31), (SStr "EE"),
      "Cy"%string, 31, "EE"%string.
    split; by vm_compute.
Defined.

Lemma get_students_all_by_ascending_id_witness :
  Forall2 valid_create [(true, 1000, PDict ann); (true, 2000, PDict cy)]
    ["ann@x.com"; "cy@x.com"]%string
  ∧ NoDup ["ann@x.com"; "cy@x.com"]%string
  ∧ Forall created
      (create_all [(true, 1000, PDict ann); (true, 2000, PDict cy)] (init_db None)).1
  ∧ ∃ l,
      out (get_students true
             (create_all [(true, 1000, PDict ann); (true, 2000, PDict cy)]
                (init_db None)).2)
        = Returned (mk_response (JArray (row_json <$> l)) 200)
      ∧ length (row_json <$> l) = 2%nat
      ∧ StronglySorted id_lt l.
Proof.
  assert (NoDup ["ann@x.com"; "cy@x.com"]%string) as Hnd.
  { apply NoDup_cons. split; [|apply NoDup_singleton].
    intros H. by apply list_elem_of_singleton in H. }
  destruct get_students_all_by_ascending_id as (_ & Hlist & Hcreate).
  assert (Forall created
    (create_all [(true, 1000, PDict ann); (true, 2000, PDict cy)]
       (init_db None)).1) as H.
  { apply (Hcreate _ _ ann_cy_valid Hnd). by vm_compute. }
  split; [exact ann_cy_valid|]. split; [exact Hnd|]. split; [exact H|].
  destruct (Hlist _ H) as (l & Hout & _ & Hlen & Hsorted & _).
  exists l. done.
Defined.

Lemma delete_student_removes_row_witness :
  Forall (λ r, row_id r ≠ 999999) (students ann_store)
  ∧ Exists (λ r, row_id r = 1) (students ann_store)
  ∧ store_after (delete_student true 999999 ann_store) = ann_store
  ∧ out (get_student true 1 (store_after (delete_student true 1 ann_store)))
      = Returned (mk_response (error_body "Student not found") 404).
Proof.
  split; [exact ann_store_lacks_999999|]. split; [exact ann_store_has_1|].
  split.
  - exact (proj2 (proj1 (delete_student_removes_row 999999 ann_store)
                    ann_store_lacks_999999)).
  - destruct (proj2 (delete_student_removes_row 1 ann_store) ann_store_has_1)
      as (_ & _ & _ & _ & _ & H).
    exact H.
Defined.

Lemma store_invariant_witness :
  reachable ann_store
  ∧ store_ok ann_store
  ∧ store_ok (store_after (update_student true 1 (PDict cy) ann_store)).
Proof.
  assert (reachable ann_store) as H.
  { apply (reachable_step true 1000 (CreateStudent (PDict ann))).
    apply reachable_init. }
  split; [exact H|].
  pose proof (proj1 (store_invariant ann_store) H) as Hok.
  split; [exact Hok|].
  exact (proj1 (proj2 (proj2 (store_invariant ann_store) Hok true 0 1 (PDict cy)))).
Defined.

Lemma update_integrity_violation_409_witness :
  Exists (λ r, row_id r = 1) (students ann_store)
  ∧ (∃ f, f ∈ required_fields ∧ name_only !! f = None)
  ∧ update_student true 1 (PDict name_only) ann_store
      = {| out := Returned (mk_response (error_body "Email already exists") 409);
           store_after := ann_store;
           trace := [Connect; Execute SelectById; Execute Update; Rollback; Close]
        |}.
Proof.
  split; [exact ann_store_has_1|]. split; [exact name_only_lacks_email|].
  destruct (update_integrity_violation_409 1 name_only ann_store ann_store_has_1)
    as (_ & Hnull & _).
  refine (proj2 (Hnull name_only_lacks_email _)).
  eexists. by vm_compute.
Defined.

Lemma create_student_missing_field_before_connect_witness :
  (∃ f, f ∈ required_fields ∧ no_course !! f = None)
  ∧ ∃ f,
      create_student false 3000 (PDict no_course) ann_store
        = {| out := Returned
                      (mk_response
                         (error_body ("Missing required field: " +:+ f)) 400);
             store_after := ann_store;
             trace := [] |}.
Proof.
  split; [exact no_course_lacks_course|].
  destruct (create_student_missing_field_before_connect false 3000 no_course
              ann_store no_course_lacks_course) as (f & _ & H & _).
  by exists f.
Defined.

(** * Further properties of the handlers *)

(** ** Unreachable store *)

(** With the store unreachable, every route that talks to the store is
    answered 500 "Database connection failed", with the store as it was and
    nothing but the failed connection attempt in the trace; for a create
    request this is so once the payload has passed the validation loop. *)
Theorem store_unreachable_500 (now : Z) (req : request) (db : store) :
  req ≠ Health →
  (∀ data, req = CreateStudent data →
     missing_field required_fields data = inr None) →
  app false now req db
    = {| out := Returned
                  (mk_response (error_body "Database connection failed") 500);
         store_after := db;
         trace := [ConnectFailed] |}.
Proof.
  intros Hreq Hvalid. destruct req as [| |sid|data|sid data|sid]; simpl;
    try done.
  unfold create_student. by rewrite (Hvalid data eq_refl).
Qed.

Lemma store_unreachable_500_witness :
  UpdateStudent 1 (PDict name_only) ≠ Health
  ∧ (∀ data, UpdateStudent 1 (PDict name_only) = CreateStudent data →
       missing_field required_fields data = inr None)
  ∧ CreateStudent (PDict ann) ≠ Health
  ∧ (∀ data, CreateStudent (PDict ann) = CreateStudent data →
       missing_field required_fields data = inr None)
  ∧ out (app false 0 (UpdateStudent 1 (PDict name_only)) ann_store)
      = Returned (mk_response (error_body "Database connection failed") 500)
  ∧ store_after (app false 0 (CreateStudent (PDict ann)) ann_store) = ann_store.
Proof.
  assert (UpdateStudent 1 (PDict name_only) ≠ Health) as H1 by discriminate.
  assert (∀ data, UpdateStudent 1 (PDict name_only) = CreateStudent data →
       missing_field required_fields data = inr None) as H2 by discriminate.
  assert (CreateStudent (PDict ann) ≠ Health) as H3 by discriminate.
  assert (∀ data, CreateStudent (PDict ann) = CreateStudent data →
       missing_field required_fields data = inr None) as H4.
  { intros data [= <-]. by vm_compute. }
  split; [exact H1|]. split; [exact H2|]. split; [exact H3|]. split; [exact H4|].
  rewrite (store_unreachable_500 0 _ ann_store H1 H2).
  rewrite (store_unreachable_500 0 _ ann_store H3 H4).
  split; reflexivity.
Defined.

(** ** Requests that fail write nothing *)

(** Closes [e ∉ t] for an event [e] and a concrete trace [t]. *)
Ltac not_in_trace :=
  let H := fresh in
  intros H;
  repeat (apply elem_of_cons in H as [H|H]; [discriminate H|]);
  by apply elem_of_nil in H.

Lemma delete_student_outcomes up sid db :
  (out (delete_student up sid db)
     = Returned
         (mk_response
            (JObject [("message"%string, JStr "Student deleted successfully")])
            200)
   ∧ store_after (delete_student up sid db)
       = {| students := filter (λ r, row_id r ≠ sid) (students db);
            students_id_seq := students_id_seq db |}
   ∧ trace (delete_student up sid db) = [Connect; Execute Delete; Commit; Close]
   ∧ Exists (λ r, row_id r = sid) (students db))
  ∨
  ((∀ r, out (delete_student up sid db) = Returned r → status r ≠ 200)
   ∧ store_after (delete_student up sid db) = db
   ∧ Commit ∉ trace (delete_student up sid db)).
Proof.
  destruct up.
  - destruct (decide (Exists (λ r, row_id r = sid) (students db))) as [Hex|Hno].
    + left. by rewrite (delete_student_known _ _ Hex).
    + right. apply not_Exists_Forall in Hno; [|apply _].
      rewrite (delete_student_unknown sid db).
      * simpl. split; [by intros r [= <-]|]. split; [done|not_in_trace].
      * eapply Forall_impl; [exact Hno|]. done.
  - right. simpl. split; [by intros r [= <-]|]. split; [done|not_in_trace].
Qed.

(** A request that is not answered with a 2xx status, whatever the reason
    (validation, unknown id, integrity violation, rejected value, store
    unreachable, escaped exception), leaves the table exactly as it was. *)
Theorem unsuccessful_request_keeps_table
  (up : bool) (now : Z) (req : request) (db : store) :
  (∀ r, out (app up now req db) = Returned r → ¬ is_2xx (status r)) →
  students (store_after (app up now req db)) = students db.
Proof.
  intros Hfail. destruct req as [| |sid|data|sid data|sid]; simpl in *.
  - done.
  - unfold get_students. by destruct up.
  - unfold get_student. by destruct up.
  - destruct (create_student_cases up now data db)
      as [(r & Hout & _)|[_ Hsame]]; [|done].
    exfalso. apply (Hfail _ Hout). unfold is_2xx. simpl. lia.
  - destruct (update_student_cases up sid data db)
      as [(old & new & n & e & a & c & Hout & _)|[_ Hsame]];
      [|by rewrite Hsame].
    exfalso. apply (Hfail _ Hout). unfold is_2xx. simpl. lia.
  - destruct (delete_student_outcomes up sid db)
      as [(Hout & _)|(_ & Hsame & _)]; [|by rewrite Hsame].
    exfalso. apply (Hfail _ Hout). unfold is_2xx. simpl. lia.
Qed.

Lemma unsuccessful_request_keeps_table_witness :
  (∀ r, out (app true 2000 (CreateStudent (PDict bob)) ann_store) = Returned r →
        ¬ is_2xx (status r))
  ∧ students (store_after (app true 2000 (CreateStudent (PDict bob)) ann_store))
      = students ann_store.
Proof.
  assert (∀ r, out (app true 2000 (CreateStudent (PDict bob)) ann_store)
               = Returned r → ¬ is_2xx (status r)) as H.
  { intros r Hr. vm_compute in Hr. injection Hr as <-.
    unfold is_2xx. simpl. lia. }
  split; [exact H|].
  exact (unsuccessful_request_keeps_table true 2000 _ ann_store H).
Defined.

(** ** Get *)

(** On a table with pairwise distinct ids, a get of a stored id is answered
    200 with the record of the row that has this id, a get of an id that
    no row has is answered 404, and either way the store is not touched. *)
Theorem get_student_finds_row (sid : Z) (db : store) :
  NoDup (row_id <$> students db) →
  (∀ r, r ∈ students db → row_id r = sid →
     out (get_student true sid db)
       = Returned (mk_response (JObject (row_json r)) 200))
  ∧ (Forall (λ r, row_id r ≠ sid) (students db) →
     out (get_student true sid db)
       = Returned (mk_response (error_body "Student not found") 404))
  ∧ store_after (get_student true sid db) = db.
Proof.
  intros Hnd. split; [|split; [|done]].
  - intros r Hin Hid. unfold get_student, get_db_connection, select_by_id.
    simpl. destruct (List.find (has_id sid) (students db)) as [r'|] eqn:Hfind.
    + apply find_has_id_Some in Hfind as [Hin' Hid'].
      assert (r' = r) as ->; [|done].
      pose proof (filter_id_unique sid _ r Hnd Hin Hid) as Hr.
      pose proof (filter_id_unique sid _ r' Hnd Hin' Hid') as Hr'.
      congruence.
    + exfalso. by apply (proj1 (find_has_id_None _ _) Hfind r).
  - intros Hno. pose proof (Forall_id_ne _ _ Hno) as Hno'.
    apply find_has_id_None in Hno'.
    unfold get_student, get_db_connection, select_by_id. simpl.
    by rewrite Hno'.
Qed.

Lemma get_student_finds_row_witness :
  NoDup (row_id <$> students ann_store)
  ∧ Forall (λ r, row_id r ≠ 999999) (students ann_store)
  ∧ out (get_student true 999999 ann_store)
      = Returned (mk_response (error_body "Student not found") 404)
  ∧ out (get_student true 1 ann_store)
      = Returned
          (mk_response
             (JObject
                (row_json (mk_row 1 (Some "Ann") (Some "ann@x.com") (Some 20)
                             (Some "CS") (Some 1000)))) 200).
Proof.
  assert (NoDup (row_id <$> students ann_store)) as Hnd.
  { rewrite ann_store_rows. apply NoDup_singleton. }
  split; [exact Hnd|]. split; [exact ann_store_lacks_999999|].
  split.
  - exact (proj1 (proj2 (get_student_finds_row 999999 ann_store Hnd))
             ann_store_lacks_999999).
  - apply (proj1 (get_student_finds_row 1 ann_store Hnd)); [|done].
    rewrite ann_store_rows. by left.
Defined.

(** ** Round trips *)

Lemma has_id_absent_find i (rs : list row) :
  existsb (has_id i) rs = false → List.find (has_id i) rs = None.
Proof.
  induction rs as [|x rs IH]; [done|]. simpl.
  intros H. apply orb_false_iff in H as [-> H]. by apply IH.
Qed.

Lemma create_student_stored up now data db :
  created (out (create_student up now data db)) →
  ∃ r,
    out (create_student up now data db)
      = Returned (mk_response (JObject (row_json r)) 201)
    ∧ store_after (create_student up now data db)
        = {| students := students db ++ [r];
             students_id_seq := students_id_seq db + 1 |}
    ∧ row_id r = students_id_seq db
    ∧ row_created_at r = Some now
    ∧ students_id_seq db ≤ INT4_MAX
    ∧ existsb (has_id (row_id r)) (students db) = false.
Proof.
  intros Hc.
  destruct (create_student_created _ _ _ _ Hc)
    as (r & n & e & a & c & Hp & Hb & Hout & Hafter & Hid & Hat & _).
  exists r. split; [done|]. split; [done|]. split; [done|]. split; [done|].
  destruct (create_student_cases up now data db)
    as [(r' & Hout' & _ & Hrows & _ & Hfree & _)|[Hne _]].
  - rewrite Hafter in Hrows. simpl in Hrows.
    apply app_inv_head in Hrows. injection Hrows as <-.
    split; [|done].
    revert Hout. unfold create_student.
    destruct (missing_field required_fields data) as [x|[f|]]; simpl; try done.
    destruct up; simpl; [|done]. rewrite Hp.
    unfold exec_insert. rewrite Hb. unfold nextval. simpl durable.
    case_bool_decide as Hseq; [done|]. simpl. intros [=].
  - exfalso. by apply (Hne _ Hout).
Qed.

(** A student that was created can be read back: after a create request
    answered 201, the record in the answer carries the id drawn from the
    sequence and the store's clock as its creation time, and a get of that
    id is answered 200 with the same record. *)
Theorem create_then_get
  (up : bool) (now : Z) (data : pyval) (db : store) (r : response) :
  out (create_student up now data db) = Returned r →
  status r = 201 →
  ∃ new,
    body r = JObject (row_json new)
    ∧ row_id new = students_id_seq db
    ∧ row_created_at new = Some now
    ∧ new ∈ students (store_after (create_student up now data db))
    ∧ out (get_student true (row_id new)
             (store_after (create_student up now data db)))
        = Returned (mk_response (body r) 200).
Proof.
  intros Hout Hst.
  destruct (create_student_stored up now data db)
    as (new & Hout' & Hafter & Hid & Hat & _ & Hfree); [by exists r|].
  rewrite Hout' in Hout. injection Hout as <-.
  exists new. split; [done|]. split; [done|]. split; [done|].
  rewrite Hafter. simpl. split; [set_solver|].
  unfold get_student, get_db_connection, select_by_id. simpl.
  rewrite (find_has_id_snoc _ _ new); [done | by apply has_id_absent_find | done].
Qed.

Lemma create_then_get_witness :
  out (create_student true 1000 (PDict ann) (init_db None))
    = Returned
        (mk_response
           (JObject
              (row_json (mk_row 1 (Some "Ann") (Some "ann@x.com") (Some 20)
                           (Some "CS") (Some 1000)))) 201)
  ∧ ∃ new,
      row_id new = 1
      ∧ out (get_student true (row_id new) ann_store)
          = Returned
              (mk_response
                 (JObject
                    (row_json (mk_row 1 (Some "Ann") (Some "ann@x.com")
                                 (Some 20) (Some "CS") (Some 1000)))) 200).
Proof.
  assert (out (create_student true 1000 (PDict ann) (init_db None))
    = Returned
        (mk_response
           (JObject
              (row_json (mk_row 1 (Some "Ann") (Some "ann@x.com") (Some 20)
                           (Some "CS") (Some 1000)))) 201)) as H
    by (by vm_compute).
  split; [exact H|].
  destruct (create_then_get true 1000 (PDict ann) (init_db None) _ H eq_refl)
    as (new & _ & Hid & _ & _ & Hget).
  exists new. split; [exact Hid|]. exact Hget.
Defined.

Lemma filter_id_length sid (rs : list row) :
  (length (filter (λ r, row_id r = sid) rs)
   + length (filter (λ r, row_id r ≠ sid) rs))%nat = length rs.
Proof.
  induction rs as [|x rs IH]; [done|].
  rewrite !filter_cons. destruct (decide (row_id x = sid)).
  - rewrite decide_False by (by intros ?). simpl. lia.
  - rewrite decide_True by done. simpl. lia.
Qed.

(** An update that was accepted can be read back, and touches one row
    only: after an update answered 200, a get of the same id is answered
    with the same record; this record has the id and the creation time of
    the row it replaces; the table has as many rows as before; the rows of
    other ids are the same; and the sequence has not moved. *)
Theorem update_then_get
  (up : bool) (sid : Z) (data : pyval) (db : store) (r : response) :
  out (update_student up sid data db) = Returned r →
  status r = 200 →
  let db' := store_after (update_student up sid data db) in
  out (get_student true sid db') = Returned r
  ∧ length (students db') = length (students db)
  ∧ (∀ r', row_id r' ≠ sid → r' ∈ students db' ↔ r' ∈ students db)
  ∧ students_id_seq db' = students_id_seq db
  ∧ ∃ old new,
      old ∈ students db ∧ row_id old = sid
      ∧ new ∈ students db' ∧ row_id new = sid
      ∧ row_created_at new = row_created_at old
      ∧ body r = JObject (row_json new).
Proof.
  intros Hout Hst db'.
  destruct (update_student_cases up sid data db)
    as [(old & new & n & e & a & c & Hout' & Hafter & Hhit & Hid & Hat & _)
       |[Hne _]]; [|by destruct (Hne _ Hout)].
  rewrite Hout' in Hout. injection Hout as <-.
  assert (old ∈ students db ∧ row_id old = sid) as [Hold Hsid].
  { assert (old ∈ filter (λ r, row_id r = sid) (students db)) as H
      by (rewrite Hhit; left).
    apply list_elem_of_filter in H. tauto. }
  unfold db'. rewrite Hafter. simpl.
  split; [|split; [|split; [|split; [done|]]]].
  - unfold get_student, get_db_connection, select_by_id. simpl.
    rewrite (find_has_id_snoc _ _ new); [done | apply find_filter_out | congruence].
  - rewrite length_app. simpl.
    pose proof (filter_id_length sid (students db)) as Hlen.
    rewrite Hhit in Hlen. simpl in Hlen. lia.
  - intros r' Hr'. rewrite elem_of_app, list_elem_of_filter, list_elem_of_singleton.
    split; [|tauto]. intros [[_ H]|Heq]; [done|]. subst r'. exfalso. congruence.
  - exists old, new. split; [done|]. split; [done|].
    split; [apply elem_of_app; right; by left|]. split; [congruence|]. done.
Qed.

Lemma update_then_get_witness :
  out (update_student true 1 (PDict cy) ann_store)
    = Returned
        (mk_response
           (JObject
              (row_json (mk_row 1 (Some "Cy") (Some "cy@x.com") (Some 31)
                           (Some "EE") (Some 1000)))) 200)
  ∧ out (get_student true 1 (store_after (update_student true 1 (PDict cy) ann_store)))
      = Returned
          (mk_response
             (JObject
                (row_json (mk_row 1 (Some "Cy") (Some "cy@x.com") (Some 31)
                             (Some "EE") (Some 1000)))) 200)
  ∧ length (students (store_after (update_student true 1 (PDict cy) ann_store)))
      = length (students ann_store).
Proof.
  assert (out (update_student true 1 (PDict cy) ann_store)
    = Returned
        (mk_response
           (JObject
              (row_json (mk_row 1 (Some "Cy") (Some "cy@x.com") (Some 31)
                           (Some "EE") (Some 1000)))) 200)) as H
    by (by vm_compute).
  split; [exact H|].
  destruct (update_then_get true 1 (PDict cy) ann_store _ H eq_refl)
    as (Hget & Hlen & _).
  split; [exact Hget | exact Hlen].
Defined.

(** ** Delete, counted *)

(** On a table with pairwise distinct ids, deleting a stored id takes
    exactly one row away and leaves the sequence alone, and deleting the
    same id again is answered 404 and changes nothing. *)
Theorem delete_student_once (sid : Z) (db : store) :
  NoDup (row_id <$> students db) →
  Exists (λ r, row_id r = sid) (students db) →
  let db' := store_after (delete_student true sid db) in
  S (length (students db')) = length (students db)
  ∧ students_id_seq db' = students_id_seq db
  ∧ out (delete_student true sid db')
      = Returned (mk_response (error_body "Student not found") 404)
  ∧ store_after (delete_student true sid db') = db'.
Proof.
  intros Hnd Hex db'. unfold db'. rewrite (delete_student_known _ _ Hex).
  simpl. destruct (Exists_id_eq _ _ Hex) as (r & Hin & Hid).
  pose proof (filter_id_length sid (students db)) as Hlen.
  rewrite (filter_id_unique sid _ r Hnd Hin Hid) in Hlen. simpl in Hlen.
  split; [lia|]. split; [done|].
  rewrite delete_student_unknown; [done|].
  simpl. apply Forall_forall. intros x Hx.
  by apply list_elem_of_filter in Hx as [? _].
Qed.

Lemma delete_student_once_witness :
  NoDup (row_id <$> students ann_store)
  ∧ Exists (λ r, row_id r = 1) (students ann_store)
  ∧ S (length (students (store_after (delete_student true 1 ann_store))))
      = length (students ann_store)
  ∧ out (delete_student true 1 (store_after (delete_student true 1 ann_store)))
      = Returned (mk_response (error_body "Student not found") 404).
Proof.
  assert (NoDup (row_id <$> students ann_store)) as Hnd.
  { rewrite ann_store_rows. apply NoDup_singleton. }
  split; [exact Hnd|]. split; [exact ann_store_has_1|].
  destruct (delete_student_once 1 ann_store Hnd ann_store_has_1)
    as (Hlen & _ & Hout & _).
  split; [exact Hlen | exact Hout].
Defined.

(** ** What of the payload is read *)

(** Only the four keys name, email, age, course of an object payload are
    read: two payloads that agree on them are served alike by create and by
    update, so that an id or a creation time sent by the caller has no
    effect. *)
Theorem handlers_read_four_keys
  (up : bool) (now sid : Z) (d d' : gmap string scalar) (db : store) :
  (∀ f, f ∈ required_fields → d !! f = d' !! f) →
  create_student up now (PDict d) db = create_student up now (PDict d') db
  ∧ update_student up sid (PDict d) db = update_student up sid (PDict d') db.
Proof.
  intros H.
  assert (d !! "name" = d' !! "name") as Hn by (apply H; set_solver).
  assert (d !! "email" = d' !! "email") as He by (apply H; set_solver).
  assert (d !! "age" = d' !! "age") as Ha by (apply H; set_solver).
  assert (d !! "course" = d' !! "course") as Hc by (apply H; set_solver).
  split.
  - unfold create_student. rewrite !missing_field_dict.
    unfold required_fields, create_params, py_getitem. simpl List.find.
    by rewrite Hn, He, Ha, Hc.
  - unfold update_student. rewrite !update_params_dict.
    by rewrite Hn, He, Ha, Hc.
Qed.

Lemma handlers_read_four_keys_witness :
  (∀ f, f ∈ required_fields → ann_with_id !! f = ann !! f)
  ∧ create_student true 1000 (PDict ann_with_id) (init_db None)
      = create_student true 1000 (PDict ann) (init_db None)
  ∧ out (create_student true 1000 (PDict ann_with_id) (init_db None))
      = Returned
          (mk_response
             (JObject
                (row_json (mk_row 1 (Some "Ann") (Some "ann@x.com") (Some 20)
                             (Some "CS") (Some 1000)))) 201).
Proof.
  assert (∀ f, f ∈ required_fields → ann_with_id !! f = ann !! f) as H.
  { intros f Hf. unfold required_fields in Hf.
    repeat (apply elem_of_cons in Hf as [->|Hf]; [by vm_compute|]).
    by apply elem_of_nil in Hf. }
  split; [exact H|].
  pose proof (proj1 (handlers_read_four_keys true 1000 0 _ _ (init_db None) H))
    as Heq.
  split; [exact Heq|]. rewrite Heq. by vm_compute.
Defined.

Lemma create_params_object data n e a c :
  create_params data = inr (n, e, a, c) → ∃ d, data = PDict d.
Proof. destruct data; try done. by eexists. Qed.

Lemma update_params_object data n e a c :
  update_params data = inr (n, e, a, c) → ∃ d, data = PDict d.
Proof. destruct data; try done. by eexists. Qed.

(** Only an object payload can write: a create request answered 201 had an
    object with the four keys as its payload, an update request answered 200
    had an object as its payload, and an update of a stored id with any
    other payload (null, a number, a string, a list) is answered 500
    "Failed to update student" after a rollback, with the store as it
    was. *)
Theorem only_objects_write
  (up : bool) (now sid : Z) (data : pyval) (db : store) :
  (created (out (create_student up now data db)) →
     ∃ d, data = PDict d ∧ Forall (λ g, is_Some (d !! g)) required_fields)
  ∧ ((∃ r, out (update_student up sid data db) = Returned r ∧ status r = 200) →
     ∃ d, data = PDict d)
  ∧ ((∀ d, data ≠ PDict d) →
     Exists (λ r, row_id r = sid) (students db) →
     update_student true sid data db
       = {| out := Returned
                     (mk_response (error_body "Failed to update student") 500);
            store_after := db;
            trace := [Connect; Execute SelectById; Rollback; Close] |}).
Proof.
  split; [|split].
  - intros Hc.
    destruct (create_student_created _ _ _ _ Hc)
      as (r & n & e & a & c & Hp & _).
    destruct (create_params_object _ _ _ _ _ Hp) as [d ->].
    exists d. split; [done|].
    apply create_params_dict in Hp as (Hn & He & Ha & Hc').
    unfold required_fields.
    repeat (apply Forall_cons; split; [by eexists|]). by apply Forall_nil.
  - intros (r & Hout & Hst).
    destruct (update_student_cases up sid data db)
      as [(old & new & n & e & a & c & _ & _ & _ & _ & _ & Hp & _)|[Hne _]].
    + by eapply update_params_object.
    + by destruct (Hne _ Hout).
  - intros Hno Hex. destruct (select_by_id_known _ _ Hex) as (r & Hsel & _).
    unfold update_student, get_db_connection. rewrite Hsel.
    destruct data; try done. by destruct (Hno d).
Qed.

Lemma only_objects_write_witness :
  created (out (create_student true 1000 (PDict ann) (init_db None)))
  ∧ (∀ d, PList [SStr "name"] ≠ PDict d)
  ∧ Exists (λ r, row_id r = 1) (students ann_store)
  ∧ (∃ d, PDict ann = PDict d ∧ Forall (λ g, is_Some (d !! g)) required_fields)
  ∧ out (update_student true 1 (PList [SStr "name"]) ann_store)
      = Returned (mk_response (error_body "Failed to update student") 500).
Proof.
  assert (∀ d, PList [SStr "name"] ≠ PDict d) as Hno by discriminate.
  split; [exact ann_created|]. split; [exact Hno|].
  split; [exact ann_store_has_1|].
  destruct (only_objects_write true 1000 1 (PDict ann) (init_db None))
    as (Hc & _ & _).
  destruct (only_objects_write true 1000 1 (PList [SStr "name"]) ann_store)
    as (_ & _ & Hu).
  split; [exact (Hc ann_created)|].
  rewrite (Hu Hno ann_store_has_1). reflexivity.
Defined.

(** ** Status codes *)

(** The status of a returned response is one of those of its route: 200
    for health; 200 or 500 for list; 200, 404 or 500 for get and for delete;
    201, 400, 409 or 500 for create; 200, 404, 409 or 500 for update. *)
Theorem app_status_codes
  (up : bool) (now : Z) (req : request) (db : store) (r : response) :
  out (app up now req db) = Returned r →
  status r ∈
    match req with
    | Health => [200]
    | ListStudents => [200; 500]
    | GetStudent _ | DeleteStudent _ => [200; 404; 500]
    | CreateStudent _ => [201; 400; 409; 500]
    | UpdateStudent _ _ => [200; 404; 409; 500]
    end.
Proof.
  destruct req as [| |sid|data|sid data|sid]; simpl.
  - intros [= <-]. set_solver.
  - unfold get_students. destruct up; simpl; intros [= <-]; simpl; set_solver.
  - unfold get_student. destruct up; simpl; intros [= <-]; simpl;
      [destruct (select_by_id sid (connect db))|]; simpl; set_solver.
  - unfold create_student.
    destruct (missing_field required_fields data) as [x|[f|]]; simpl;
      [done | intros [= <-]; set_solver |].
    destruct up; simpl; [|intros [= <-]; set_solver].
    destruct (create_params data) as [x|[[[n e] a] c]]; simpl.
    { intros [= <-].
      destruct (failed_write_not_2xx x "Failed to create student") as [->| ->];
        set_solver. }
    destruct (exec_insert n e a c now (connect db)) as [[x|new] conn']; simpl;
      intros [= <-]; [|set_solver].
    destruct (failed_write_not_2xx x "Failed to create student") as [->| ->];
      set_solver.
  - unfold update_student.
    destruct up; simpl; [|intros [= <-]; set_solver].
    destruct (select_by_id sid (connect db)) as [found|]; simpl;
      [|intros [= <-]; set_solver].
    destruct (update_params data) as [x|[[[n e] a] c]]; simpl.
    { intros [= <-].
      destruct (failed_write_not_2xx x "Failed to update student") as [->| ->];
        set_solver. }
    destruct (exec_update n e a c sid (connect db)) as [[x|[new|]] conn'];
      simpl; intros [= <-]; [|set_solver|set_solver].
    destruct (failed_write_not_2xx x "Failed to update student") as [->| ->];
      set_solver.
  - unfold delete_student. destruct up; simpl; [|intros [= <-]; set_solver].
    destruct (length _); simpl; intros [= <-]; simpl; set_solver.
Qed.

Lemma app_status_codes_witness :
  out (app true 2000 (CreateStudent (PDict bob)) ann_store)
    = Returned (mk_response (error_body "Failed to create student") 500)
  ∧ (500 : Z) ∈ [201; 400; 409; 500].
Proof.
  assert (out (app true 2000 (CreateStudent (PDict bob)) ann_store)
    = Returned (mk_response (error_body "Failed to create student") 500)) as H
    by (by vm_compute).
  split; [exact H|].
  exact (app_status_codes true 2000 _ ann_store _ H).
Defined.

(** ** The id sequence *)

Lemma exec_insert_seq n e a c now conn :
  students_id_seq (durable (exec_insert n e a c now conn).2)
    = students_id_seq (durable conn)
  ∨ (students_id_seq (durable conn) ≤ INT4_MAX
     ∧ students_id_seq (durable (exec_insert n e a c now conn).2)
         = students_id_seq (durable conn) + 1).
Proof.
  unfold exec_insert.
  destruct (bind_columns n e a c) as [x|[[[n' e'] a'] c']]; [by left|].
  unfold nextval. case_bool_decide as Hseq; [|by left].
  destruct (null_column _); [by right|]. simpl pending.
  destruct (existsb _ _); [by right|].
  destruct (email_taken _ _); by right.
Qed.

Lemma create_student_seq up now data db :
  students_id_seq (store_after (create_student up now data db))
    = students_id_seq db
  ∨ (students_id_seq db ≤ INT4_MAX
     ∧ students_id_seq (store_after (create_student up now data db))
         = students_id_seq db + 1).
Proof.
  unfold create_student.
  destruct (missing_field required_fields data) as [x|[f|]]; simpl;
    [by left | by left |].
  destruct up; simpl; [|by left].
  destruct (create_params data) as [x|[[[n e] a] c]]; simpl; [by left|].
  pose proof (exec_insert_seq n e a c now (connect db)) as Hseq.
  destruct (exec_insert n e a c now (connect db)) as [[x|new] conn']; done.
Qed.

Lemma app_seq_monotone up now req db :
  students_id_seq db ≤ students_id_seq (store_after (app up now req db)).
Proof.
  destruct req as [| |sid|data|sid data|sid]; simpl.
  - done.
  - unfold get_students. by destruct up.
  - unfold get_student. by destruct up.
  - destruct (create_student_seq up now data db) as [-> | [_ ->]]; lia.
  - destruct (update_student_cases up sid data db)
      as [(old & new & n & e & a & c & _ & -> & _)|[_ ->]]; done.
  - destruct (delete_student_outcomes up sid db)
      as [(_ & -> & _)|(_ & -> & _)]; done.
Qed.

Lemma app_ids_issued up now req db :
  ids_issued db → ids_issued (store_after (app up now req db)).
Proof.
  intros [Hseq Hids]. destruct req as [| |sid|data|sid data|sid]; simpl.
  - done.
  - unfold get_students. by destruct up.
  - unfold get_student. by destruct up.
  - destruct (create_student_cases up now data db)
      as [(r & Hout & _)|[_ Hsame]].
    + destruct (create_student_stored up now data db)
        as (new & _ & -> & Hid & _ & Hmax & _); [by eexists|].
      split; simpl; [lia|]. apply Forall_app. split.
      * eapply Forall_impl; [exact Hids|]. simpl. intros; lia.
      * apply Forall_singleton. lia.
    + split.
      * destruct (create_student_seq up now data db) as [-> | [? ->]]; lia.
      * rewrite Hsame. eapply Forall_impl; [exact Hids|]. simpl. intros x Hx.
        pose proof (app_seq_monotone up now (CreateStudent data) db) as Hm.
        simpl in Hm. lia.
  - destruct (update_student_cases up sid data db)
      as [(old & new & n & e & a & c & _ & -> & Hhit & Hid & _)|[_ ->]];
      [|done].
    split; simpl; [done|]. apply Forall_app. split.
    + apply Forall_forall. intros x Hx.
      apply list_elem_of_filter in Hx as [_ Hx].
      by apply (proj1 (Forall_forall _ _) Hids).
    + apply Forall_singleton. rewrite Hid.
      apply (proj1 (Forall_forall _ _) Hids).
      assert (old ∈ filter (λ r, row_id r = sid) (students db)) as H
        by (rewrite Hhit; left).
      by apply list_elem_of_filter in H as [_ H].
  - destruct (delete_student_outcomes up sid db)
      as [(_ & -> & _)|(_ & -> & _)]; [|done].
    split; simpl; [done|]. apply Forall_forall. intros x Hx.
    apply list_elem_of_filter in Hx as [_ Hx].
    by apply (proj1 (Forall_forall _ _) Hids).
Qed.

Lemma reachable_ids_issued db : reachable db → ids_issued db.
Proof.
  induction 1 as [|up now req db _ IH].
  - split; simpl; [unfold INT4_MAX; lia | constructor].
  - by apply app_ids_issued.
Qed.

(** Ids are never reused. In every store state that the service can reach,
    the sequence is within 1 .. 2^31 and every stored id is positive and
    below it; no request makes the sequence go back; and a create request
    answered 201 appends a student whose id is the sequence value, above
    the id of every student in the table. *)
Theorem ids_never_reused (db : store) :
  reachable db →
  ids_issued db
  ∧ (∀ up now req,
       students_id_seq db ≤ students_id_seq (store_after (app up now req db)))
  ∧ (∀ up now data,
       created (out (create_student up now data db)) →
       ∃ new,
         students (store_after (create_student up now data db))
           = students db ++ [new]
         ∧ row_id new = students_id_seq db
         ∧ 1 ≤ row_id new ≤ INT4_MAX
         ∧ Forall (λ r, row_id r < row_id new) (students db)).
Proof.
  intros Hreach. pose proof (reachable_ids_issued db Hreach) as [Hseq Hids].
  split; [done|]. split; [intros; apply app_seq_monotone|].
  intros up now data Hc.
  destruct (create_student_stored up now data db Hc)
    as (new & _ & -> & Hid & _ & Hmax & _).
  exists new. split; [done|]. split; [done|]. split; [lia|].
  eapply Forall_impl; [exact Hids|]. simpl. intros; lia.
Qed.

Lemma ann_store_reachable : reachable ann_store.
Proof.
  apply (reachable_step true 1000 (CreateStudent (PDict ann))).
  apply reachable_init.
Defined.

Lemma ids_never_reused_witness :
  reachable ann_store
  ∧ created (out (create_student true 2000 (PDict cy) ann_store))
  ∧ ∃ new,
      students (store_after (create_student true 2000 (PDict cy) ann_store))
        = students ann_store ++ [new]
      ∧ row_id new = students_id_seq ann_store
      ∧ Forall (λ r, row_id r < row_id new) (students ann_store).
Proof.
  assert (created (out (create_student true 2000 (PDict cy) ann_store))) as Hc.
  { eexists. split; [by vm_compute | done]. }
  split; [exact ann_store_reachable|]. split; [exact Hc|].
  destruct (ids_never_reused ann_store ann_store_reachable) as (_ & _ & H).
  destruct (H true 2000 (PDict cy) Hc) as (new & Hrows & Hid & _ & Hlt).
  exists new. split; [exact Hrows|]. split; [exact Hid | exact Hlt].
Defined.

(** ** Column bounds *)

Lemma string_take_length n s : (String.length (string_take n s) ≤ n)%nat.
Proof.
  revert s. induction n as [|n IH]; intros [|c s]; simpl; try lia.
  specialize (IH s). lia.
Qed.

Lemma fit_varchar_fits s t : fit_varchar s = inr t → text_fits t.
Proof.
  unfold fit_varchar. case_bool_decide as Hlen.
  - intros [= <-] s' [= <-]. done.
  - destruct (string_forallb _ _); [|done].
    generalize (string_take_length VARCHAR_LIMIT s).
    generalize (string_take VARCHAR_LIMIT s).
    by intros u Hu [= <-] s' [= <-].
Qed.

Lemma to_varchar_fits v t : to_varchar v = inr t → text_fits t.
Proof.
  destruct v as [|b|n|s]; simpl.
  - by intros [= <-] s' ?.
  - intros [= <-] s' [= <-]. destruct b; unfold VARCHAR_LIMIT; simpl; lia.
  - destruct (fit_varchar (pretty n)) eqn:Hf; [done|].
    intros [= <-]. by eapply fit_varchar_fits.
  - destruct (has_nul s); [done|].
    destruct (fit_varchar s) eqn:Hf; [done|].
    intros [= <-]. by eapply fit_varchar_fits.
Qed.

Lemma fit_int4_fits n t : fit_int4 n = inr t → int_fits t.
Proof.
  unfold fit_int4. case_bool_decide as Hr; [|done].
  by intros [= <-] n' [= <-].
Qed.

Lemma to_integer_fits v t : to_integer v = inr t → int_fits t.
Proof.
  destruct v as [|b|n|s]; simpl.
  - by intros [= <-] n' ?.
  - done.
  - destruct (fit_int4 n) eqn:Hf; [done|].
    intros [= <-]. by eapply fit_int4_fits.
  - destruct (has_nul s); [done|].
    destruct (parse_integer s) as [n|]; [|done].
    destruct (fit_int4 n) eqn:Hf; [done|].
    intros [= <-]. by eapply fit_int4_fits.
Qed.

Lemma bind_columns_fits n e a c r :
  bind_columns n e a c = inr (row_name r, row_email r, row_age r, row_course r) →
  row_fits r.
Proof.
  intros H. apply bind_columns_inr in H as (Hn & He & Ha & Hc).
  split; [by eapply to_varchar_fits|]. split; [by eapply to_varchar_fits|].
  split; [by eapply to_integer_fits | by eapply to_varchar_fits].
Qed.

Lemma app_rows_fit up now req db :
  Forall row_fits (students db) →
  Forall row_fits (students (store_after (app up now req db))).
Proof.
  intros Hfit. destruct req as [| |sid|data|sid data|sid]; simpl.
  - done.
  - unfold get_students. by destruct up.
  - unfold get_student. by destruct up.
  - destruct (create_student_cases up now data db)
      as [(r & Hout & _)|[_ ->]]; [|done].
    destruct (create_student_created up now data db)
      as (new & n & e & a & c & _ & Hb & _ & -> & _); [by eexists|].
    simpl. apply Forall_app. split; [done|].
    apply Forall_singleton. by eapply bind_columns_fits.
  - destruct (update_student_cases up sid data db)
      as [(old & new & n & e & a & c & _ & -> & _ & _ & _ & _ & Hb & _)|[_ ->]];
      [|done].
    simpl. apply Forall_app. split.
    + apply Forall_forall. intros x Hx.
      apply list_elem_of_filter in Hx as [_ Hx].
      by apply (proj1 (Forall_forall _ _) Hfit).
    + apply Forall_singleton. by eapply bind_columns_fits.
  - destruct (delete_student_outcomes up sid db)
      as [(_ & -> & _)|(_ & -> & _)]; [|done].
    simpl. apply Forall_forall. intros x Hx.
    apply list_elem_of_filter in Hx as [_ Hx].
    by apply (proj1 (Forall_forall _ _) Hfit).
Qed.

(** What is stored fits its column. In every store state that the service
    can reach, the name, email and course of every student have at most 100
    characters and the age is a 32-bit integer; and every request keeps it
    so from any table of which it holds. *)
Theorem stored_values_fit_columns (db : store) :
  (reachable db → Forall row_fits (students db))
  ∧ (Forall row_fits (students db) →
     ∀ up now req, Forall row_fits (students (store_after (app up now req db)))).
Proof.
  split.
  - induction 1 as [|up now req db _ IH]; [constructor|].
    by apply app_rows_fit.
  - intros H up now req. by apply app_rows_fit.
Qed.

Lemma stored_values_fit_columns_witness :
  reachable ann_store ∧ Forall row_fits (students ann_store).
Proof.
  split; [exact ann_store_reachable|].
  exact (proj1 (stored_values_fit_columns ann_store) ann_store_reachable).
Defined.

(** ** Null values on create *)

(** A create request whose payload has the four keys, one of them with the
    value null, passes the validation; when its values are accepted by the
    column types and the sequence is not exhausted, the INSERT then fails on
    the NOT NULL column and the request is answered 409 "Email already
    exists", whether or not the email is in use, after a rollback and with
    the table as it was. *)
Theorem create_null_value_409
  (now : Z) (d : gmap string scalar) (db : store) :
  (∃ f, f ∈ required_fields ∧ d !! f = Some SNull) →
  (∃ n e a c cols,
     create_params (PDict d) = inr (n, e, a, c)
     ∧ bind_columns n e a c = inr cols) →
  students_id_seq db ≤ INT4_MAX →
  missing_field required_fields (PDict d) = inr None
  ∧ out (create_student true now (PDict d) db)
      = Returned (mk_response (error_body "Email already exists") 409)
  ∧ trace (create_student true now (PDict d) db)
      = [Connect; Execute Insert; Rollback; Close]
  ∧ students (store_after (create_student true now (PDict d) db)) = students db.
Proof.
  intros (f & Hin & Hf) (n & e & a & c & [[[n' e'] a'] c'] & Hp & Hb) Hseq.
  pose proof (create_params_dict d n e a c Hp) as (Hn & He & Ha & Hc).
  assert (missing_field required_fields (PDict d) = inr None) as Hv.
  { apply missing_field_present. unfold required_fields.
    repeat (apply Forall_cons; split; [by eexists|]). by apply Forall_nil. }
  split; [done|].
  assert (n' = None ∨ e' = None ∨ a' = None ∨ c' = None) as Hnull.
  { pose proof (bind_columns_inr _ _ _ _ _ _ _ _ Hb) as (Hn' & He' & Ha' & Hc').
    unfold required_fields in Hin.
    repeat (apply elem_of_cons in Hin as [->|Hin]);
      [| | | |by apply elem_of_nil in Hin];
      rewrite Hf in *; simplify_eq/=; auto. }
  unfold create_student. rewrite Hv. simpl get_db_connection. cbv iota.
  rewrite Hp. unfold exec_insert. rewrite Hb. unfold nextval.
  simpl durable. rewrite bool_decide_eq_true_2 by done.
  unfold null_column; simpl row_name; simpl row_email; simpl row_age;
    simpl row_course.
  destruct n', e', a', c'; try done.
  by destruct Hnull as [?|[?|[?|?]]].
Qed.

Lemma create_null_value_409_witness :
  (∃ f, f ∈ required_fields ∧ ann_unnamed !! f = Some SNull)
  ∧ (∃ n e a c cols,
       create_params (PDict ann_unnamed) = inr (n, e, a, c)
       ∧ bind_columns n e a c = inr cols)
  ∧ students_id_seq (init_db None) ≤ INT4_MAX
  ∧ out (create_student true 1000 (PDict ann_unnamed) (init_db None))
      = Returned (mk_response (error_body "Email already exists") 409).
Proof.
  assert (∃ f, f ∈ required_fields ∧ ann_unnamed !! f = Some SNull) as H1.
  { exists "name"%string. split; [|by vm_compute]. left. }
  assert (∃ n e a c cols,
       create_params (PDict ann_unnamed) = inr (n, e, a, c)
       ∧ bind_columns n e a c = inr cols) as H2.
  { exists SNull, (SStr "ann@x.com"), (SInt 20), (SStr "CS"),
      (None, Some "ann@x.com", Some 20, Some "CS")%string.
    split; by vm_compute. }
  assert (students_id_seq (init_db None) ≤ INT4_MAX) as H3 by (by vm_compute).
  split; [exact H1|]. split; [exact H2|]. split; [exact H3|].
  exact (proj1 (proj2 (create_null_value_409 1000 ann_unnamed (init_db None)
                         H1 H2 H3))).
Defined.

(** ** Emails and the rows that hold them *)

Lemma NoDup_fmap_eq {A B} (f : A → B) (l : list A) x y :
  NoDup (f <$> l) → x ∈ l → y ∈ l → f x = f y → x = y.
Proof.
  induction l as [|z l IH]; intros Hnd Hx Hy Heq.
  - by apply elem_of_nil in Hx.
  - rewrite fmap_cons, NoDup_cons in Hnd. destruct Hnd as [Hz Hnd].
    apply elem_of_cons in Hx as [->|Hx]; apply elem_of_cons in Hy as [->|Hy].
    + done.
    + exfalso. apply Hz. rewrite Heq. apply list_elem_of_fmap. by exists y.
    + exfalso. apply Hz. rewrite <- Heq. apply list_elem_of_fmap. by exists x.
    + by apply IH.
Qed.

Lemma email_free_elsewhere sid (rs : list row) r em :
  NoDup (row_email <$> rs) → r ∈ rs → row_id r = sid → row_email r = Some em →
  email_taken (Some em) (filter (λ r, row_id r ≠ sid) rs) = false.
Proof.
  intros Hnd Hin Hid Hem.
  destruct (email_taken _ _) eqn:Htaken; [|done]. exfalso.
  simpl in Htaken. apply existsb_exists in Htaken as (x & Hx & Heq).
  apply list_elem_of_In, list_elem_of_filter in Hx as [Hne Hx].
  apply bool_decide_eq_true in Heq.
  assert (x = r) as -> by (eapply NoDup_fmap_eq; [done..|congruence]).
  done.
Qed.

Lemma update_student_accepted sid (d : gmap string scalar) db old n' e' a' c' :
  NoDup (row_id <$> students db) →
  old ∈ students db → row_id old = sid →
  bind_columns (default SNull (d !! "name")) (default SNull (d !! "email"))
    (default SNull (d !! "age")) (default SNull (d !! "course"))
    = inr (Some n', Some e', Some a', Some c') →
  email_taken (Some e') (filter (λ r, row_id r ≠ sid) (students db)) = false →
  update_student true sid (PDict d) db
    = {| out := Returned
                  (mk_response
                     (JObject
                        (row_json (mk_row sid (Some n') (Some e') (Some a')
                                     (Some c') (row_created_at old)))) 200);
         store_after :=
           {| students :=
                filter (λ r, row_id r ≠ sid) (students db)
                ++ [mk_row sid (Some n') (Some e') (Some a') (Some c')
                      (row_created_at old)];
              students_id_seq := students_id_seq db |};
         trace := [Connect; Execute SelectById; Execute Update; Commit; Close]
      |}.
Proof.
  intros Hids Hin Hid Hb Hem.
  assert (Exists (λ r, row_id r = sid) (students db)) as Hex
    by (apply Exists_exists; by exists old).
  rewrite (update_student_statement _ _ _ Hex).
  unfold exec_update. rewrite Hb. simpl pending.
  rewrite (filter_id_unique sid _ old Hids Hin Hid).
  unfold null_column; simpl row_name; simpl row_email; simpl row_age;
    simpl row_course; cbv iota.
  rewrite Hem. rewrite bool_decide_eq_false_2 by (by intros H). simpl.
  by rewrite Hid.
Qed.

(** The uniqueness of emails is checked against the other rows only: on a
    table that satisfies its constraints, an update that gives a stored
    student the email it already has, with values that the columns accept,
    is answered 200 with the replaced record. *)
Theorem update_keeping_email
  (sid : Z) (d : gmap string scalar) (db : store) (old : row)
  (n' em c' : string) (a' : Z) :
  store_ok db →
  old ∈ students db → row_id old = sid → row_email old = Some em →
  bind_columns (default SNull (d !! "name")) (default SNull (d !! "email"))
    (default SNull (d !! "age")) (default SNull (d !! "course"))
    = inr (Some n', Some em, Some a', Some c') →
  out (update_student true sid (PDict d) db)
    = Returned
        (mk_response
           (JObject
              (row_json (mk_row sid (Some n') (Some em) (Some a') (Some c')
                           (row_created_at old)))) 200).
Proof.
  intros [Hids Hemails _] Hin Hid Hem Hb.
  rewrite (update_student_accepted sid d db old n' em a' c'); try done.
  by apply (email_free_elsewhere sid _ old).
Qed.

Lemma ann_store_ok : store_ok ann_store.
Proof. apply reachable_store_ok, ann_store_reachable. Defined.

Lemma update_keeping_email_witness :
  store_ok ann_store
  ∧ mk_row 1 (Some "Ann") (Some "ann@x.com") (Some 20) (Some "CS") (Some 1000)
      ∈ students ann_store
  ∧ out (update_student true 1 (PDict ann) ann_store)
      = Returned
          (mk_response
             (JObject
                (row_json (mk_row 1 (Some "Ann") (Some "ann@x.com") (Some 20)
                             (Some "CS") (Some 1000)))) 200).
Proof.
  assert (mk_row 1 (Some "Ann") (Some "ann@x.com") (Some 20) (Some "CS")
            (Some 1000) ∈ students ann_store) as Hin.
  { rewrite ann_store_rows. by left. }
  split; [exact ann_store_ok|]. split; [exact Hin|].
  refine (update_keeping_email 1 ann ann_store _ "Ann" "ann@x.com" "CS" 20
            ann_store_ok Hin _ _ _); by vm_compute.
Defined.

(** Deleting a student frees the email. In a store state that the service
    can reach, a create request with acceptable values and the email of a
    stored student does not store anything; once that student is deleted,
    the same request is answered 201, as long as the sequence lasts. *)
Theorem delete_frees_email
  (now : Z) (d : gmap string scalar) (em : string) (r : row) (db : store) :
  reachable db →
  r ∈ students db → row_email r = Some em →
  acceptable d em →
  students_id_seq db ≤ INT4_MAX →
  ¬ created (out (create_student true now (PDict d) db))
  ∧ created
      (out (create_student true now (PDict d)
              (store_after (delete_student true (row_id r) db)))).
Proof.
  intros Hreach Hin Hem Hacc Hseq. split.
  - intros Hc.
    destruct (create_student_created _ _ _ _ Hc)
      as (new & n & e & a & c & Hp & Hb & _ & _ & _ & _ & _ & Hfree).
    destruct Hacc as (n0 & e0 & a0 & c0 & n' & a' & c' & Hp0 & Hb0).
    rewrite Hp0 in Hp. injection Hp as <- <- <- <-.
    rewrite Hb0 in Hb. injection Hb as _ Hmail _ _.
    rewrite <- Hmail in Hfree.
    by rewrite (email_taken_elem em _ r Hin Hem) in Hfree.
  - destruct (reachable_store_ok db Hreach) as [Hids Hemails _].
    destruct (reachable_ids_issued db Hreach) as [_ Hbelow].
    assert (Exists (λ x, row_id x = row_id r) (students db)) as Hex
      by (apply Exists_exists; by exists r).
    rewrite (delete_student_known _ _ Hex). simpl.
    edestruct (create_student_acceptable now d em) as (new & -> & _);
      [exact Hacc | exact Hseq | | |by eexists].
    + simpl. apply Forall_forall. intros x Hx.
      apply list_elem_of_filter in Hx as [_ Hx].
      pose proof (proj1 (Forall_forall _ _) Hbelow x Hx). simpl in *. lia.
    + simpl. by apply (email_free_elsewhere (row_id r) _ r).
Qed.

Lemma delete_frees_email_witness :
  reachable ann_store
  ∧ acceptable ann "ann@x.com"
  ∧ students_id_seq ann_store ≤ INT4_MAX
  ∧ ¬ created (out (create_student true 3000 (PDict ann) ann_store))
  ∧ created
      (out (create_student true 3000 (PDict ann)
              (store_after (delete_student true 1 ann_store)))).
Proof.
  assert (acceptable ann "ann@x.com") as Hacc.
  { exists (SStr "Ann"), (SStr "ann@x.com"), (SInt 20), (SStr "CS"),
      "Ann"%string, 20, "CS"%string.
    split; by vm_compute. }
  assert (students_id_seq ann_store ≤ INT4_MAX) as Hseq by (by vm_compute).
  assert (mk_row 1 (Some "Ann") (Some "ann@x.com") (Some 20) (Some "CS")
            (Some 1000) ∈ students ann_store) as Hin.
  { rewrite ann_store_rows. by left. }
  split; [exact ann_store_reachable|]. split; [exact Hacc|].
  split; [exact Hseq|].
  exact (delete_frees_email 3000 ann "ann@x.com" _ ann_store
           ann_store_reachable Hin eq_refl Hacc Hseq).
Defined.

(** ** List and get agree *)

Lemma get_student_of_row db r :
  NoDup (row_id <$> students db) → r ∈ students db →
  out (get_student true (row_id r) db)
    = Returned (mk_response (JObject (row_json r)) 200).
Proof.
  intros Hnd Hin. unfold get_student, get_db_connection, select_by_id. simpl.
  destruct (List.find (has_id (row_id r)) (students db)) as [r'|] eqn:Hfind.
  - apply find_has_id_Some in Hfind as [Hin' Hid'].
    by rewrite (NoDup_fmap_eq row_id _ r' r Hnd Hin' Hin Hid').
  - exfalso. by apply (proj1 (find_has_id_None _ _) Hfind r).
Qed.

(** On a table with pairwise distinct ids, the list holds the records of
    the stored students and of no others, and every record of the list is
    the answer of a get of its id. *)
Theorem list_and_get_agree (db : store) :
  NoDup (row_id <$> students db) →
  ∃ l,
    out (get_students true db)
      = Returned (mk_response (JArray (row_json <$> l)) 200)
    ∧ (∀ r, r ∈ l ↔ r ∈ students db)
    ∧ (∀ r, r ∈ l →
         out (get_student true (row_id r) db)
           = Returned (mk_response (JObject (row_json r)) 200)).
Proof.
  intros Hnd. exists (merge_sort id_le (students db)).
  pose proof (merge_sort_Permutation id_le (students db)) as Hperm.
  split; [done|]. split.
  - intros r. by rewrite Hperm.
  - intros r Hr. rewrite Hperm in Hr. by apply get_student_of_row.
Qed.

Lemma list_and_get_agree_witness :
  NoDup (row_id <$> students ann_store)
  ∧ ∃ l,
      out (get_students true ann_store)
        = Returned (mk_response (JArray (row_json <$> l)) 200)
      ∧ (∀ r, r ∈ l ↔ r ∈ students ann_store).
Proof.
  assert (NoDup (row_id <$> students ann_store)) as Hnd.
  { rewrite ann_store_rows. apply NoDup_singleton. }
  split; [exact Hnd|].
  destruct (list_and_get_agree ann_store Hnd) as (l & Hout & Hmem & _).
  exists l. split; [exact Hout | exact Hmem].
Defined.

(** ** Connections *)

(** Closes [well_bracketed t] for a concrete trace [t]. *)
Ltac bracketed :=
  first [ by left
        | by (right; left)
        | right; right; repeat split; try reflexivity; not_in_trace ].

(** Closes [e ∈ t] for an event [e] of a concrete trace [t]. *)
Ltac in_trace := by repeat constructor.

Lemma app_well_bracketed up now req db :
  well_bracketed (trace (app up now req db)).
Proof.
  destruct req as [| |sid|data|sid data|sid]; simpl.
  - bracketed.
  - unfold get_students. destruct up; simpl; bracketed.
  - unfold get_student. destruct up; simpl; bracketed.
  - unfold create_student.
    destruct (missing_field required_fields data) as [x|[f|]]; simpl;
      [bracketed | bracketed |].
    destruct up; simpl; [|bracketed].
    destruct (create_params data) as [x|[[[n e] a] c]]; simpl; [bracketed|].
    destruct (exec_insert n e a c now (connect db)) as [[x|new] conn']; simpl;
      bracketed.
  - unfold update_student. destruct up; simpl; [|bracketed].
    destruct (select_by_id sid (connect db)) as [found|]; simpl; [|bracketed].
    destruct (update_params data) as [x|[[[n e] a] c]]; simpl; [bracketed|].
    destruct (exec_update n e a c sid (connect db)) as [[x|[new|]] conn'];
      simpl; bracketed.
  - unfold delete_student. destruct up; simpl; [|bracketed].
    destruct (length _); simpl; bracketed.
Qed.

Lemma app_no_commit_no_change up now req db :
  Commit ∉ trace (app up now req db) →
  students (store_after (app up now req db)) = students db.
Proof.
  destruct req as [| |sid|data|sid data|sid]; simpl.
  - done.
  - unfold get_students. by destruct up.
  - unfold get_student. by destruct up.
  - destruct (create_student_cases up now data db)
      as [(r & _ & -> & _)|[_ ->]]; [|done].
    intros H. exfalso. apply H. in_trace.
  - unfold update_student. destruct up; simpl; [|done].
    destruct (select_by_id sid (connect db)) as [found|]; simpl; [|done].
    destruct (update_params data) as [x|[[[n e] a] c]]; simpl; [done|].
    destruct (exec_update_cases n e a c sid (connect db))
      as [(old & n' & e' & a' & c' & Hex & _)|[[Hex _]|[x Hex]]];
      simpl in Hex; rewrite Hex; simpl; [| |done];
      intros H; exfalso; apply H; in_trace.
  - destruct (delete_student_outcomes up sid db)
      as [(_ & _ & -> & _)|(_ & -> & _)]; [|done].
    intros H. exfalso. apply H. in_trace.
Qed.

Lemma writes_ended_after (t : list event) :
  writes_ended t = true →
  ∀ pre s post,
    t = pre ++ Execute s :: post →
    s = Insert ∨ s = Update →
    Commit ∈ post ∨ Rollback ∈ post.
Proof.
  intros Hok pre. revert t Hok.
  induction pre as [|a pre IH]; intros t Hok s post -> Hs.
  - assert (existsb is_end post = true) as Hhere.
    { destruct Hs as [-> | ->]; simpl in Hok;
        by apply andb_true_iff in Hok as [Hhere _]. }
    apply existsb_exists in Hhere as (e & Hin & He).
    apply list_elem_of_In in Hin.
    destruct e; try done; [by left | by right].
  - simpl in Hok. apply andb_true_iff in Hok as [_ Hrest].
    by apply (IH _ Hrest s post).
Qed.

Lemma app_writes_ended up now req db :
  writes_ended (trace (app up now req db)) = true.
Proof.
  destruct req as [| |sid|data|sid data|sid]; simpl.
  - done.
  - unfold get_students. by destruct up.
  - unfold get_student. by destruct up.
  - unfold create_student.
    destruct (missing_field required_fields data) as [x|[f|]]; simpl;
      [done | done |].
    destruct up; simpl; [|done].
    destruct (create_params data) as [x|[[[n e] a] c]]; simpl; [done|].
    by destruct (exec_insert n e a c now (connect db)) as [[x|new] conn'].
  - unfold update_student. destruct up; simpl; [|done].
    destruct (select_by_id sid (connect db)) as [found|]; simpl; [|done].
    destruct (update_params data) as [x|[[[n e] a] c]]; simpl; [done|].
    by destruct (exec_update n e a c sid (connect db)) as [[x|[new|]] conn'].
  - unfold delete_student. destruct up; simpl; [|done].
    by destruct (length _).
Qed.

(** Every request releases what it acquires. The trace of a request is
    empty, or a failed connection attempt alone, or opens the connection
    first and closes it last, once each; the table is different afterwards
    only if the trace holds a commit; and wherever an INSERT or an UPDATE
    stands in the trace, a commit or a rollback stands after it. *)
Theorem connection_always_closed
  (up : bool) (now : Z) (req : request) (db : store) :
  well_bracketed (trace (app up now req db))
  ∧ (Commit ∉ trace (app up now req db) →
     students (store_after (app up now req db)) = students db)
  ∧ (∀ pre s post,
       trace (app up now req db) = pre ++ Execute s :: post →
       s = Insert ∨ s = Update →
       Commit ∈ post ∨ Rollback ∈ post).
Proof.
  split; [apply app_well_bracketed|].
  split; [apply app_no_commit_no_change|].
  apply writes_ended_after, app_writes_ended.
Qed.

Lemma connection_always_closed_witness :
  (Commit ∉ trace (app true 0 (UpdateStudent 1 (PDict name_only)) ann_store))
  ∧ trace (app true 0 (UpdateStudent 1 (PDict name_only)) ann_store)
      = [Connect; Execute SelectById] ++ Execute Update :: [Rollback; Close]
  ∧ students (store_after (app true 0 (UpdateStudent 1 (PDict name_only)) ann_store))
      = students ann_store
  ∧ (Commit ∈ [Rollback; Close] ∨ Rollback ∈ [Rollback; Close]).
Proof.
  assert (trace (app true 0 (UpdateStudent 1 (PDict name_only)) ann_store)
    = [Connect; Execute SelectById] ++ Execute Update :: [Rollback; Close]) as Ht
    by (by vm_compute).
  assert (Commit ∉ trace (app true 0 (UpdateStudent 1 (PDict name_only)) ann_store))
    as H1 by (rewrite Ht; not_in_trace).
  destruct (connection_always_closed true 0 (UpdateStudent 1 (PDict name_only))
              ann_store) as (_ & Hsame & Hend).
  split; [exact H1|]. split; [exact Ht|]. split; [exact (Hsame H1)|].
  exact (Hend _ _ _ Ht (or_intror eq_refl)).
Defined.

(** ** Payloads that are not objects *)

(** The validation loop tests membership, which a string answers for its
    substrings and a list for its elements: a create request whose payload
    is not an object but passes the loop is answered 500 "Failed to create
    student" once the store is reached, after a rollback, with the store as
    it was and no statement sent. *)
Theorem create_non_object_500 (now : Z) (data : pyval) (db : store) :
  (∀ d, data ≠ PDict d) →
  missing_field required_fields data = inr None →
  create_student true now data db
    = {| out := Returned
                  (mk_response (error_body "Failed to create student") 500);
         store_after := db;
         trace := [Connect; Rollback; Close] |}.
Proof.
  intros Hno Hv. unfold create_student. rewrite Hv. simpl.
  destruct data; try done. by destruct (Hno d).
Qed.

Lemma create_non_object_500_witness :
  (∀ d, four_names ≠ PDict d)
  ∧ missing_field required_fields four_names = inr None
  ∧ (∀ d, four_elements ≠ PDict d)
  ∧ missing_field required_fields four_elements = inr None
  ∧ out (create_student true 0 four_names ann_store)
      = Returned (mk_response (error_body "Failed to create student") 500)
  ∧ store_after (create_student true 0 four_elements ann_store) = ann_store.
Proof.
  assert (∀ d, four_names ≠ PDict d) as H1 by discriminate.
  assert (missing_field required_fields four_names = inr None) as H2
    by (by vm_compute).
  assert (∀ d, four_elements ≠ PDict d) as H3 by discriminate.
  assert (missing_field required_fields four_elements = inr None) as H4
    by (by vm_compute).
  split; [exact H1|]. split; [exact H2|]. split; [exact H3|]. split; [exact H4|].
  rewrite (create_non_object_500 0 four_names ann_store H1 H2).
  rewrite (create_non_object_500 0 four_elements ann_store H3 H4).
  split; reflexivity.
Defined.

(** ** Update, repeated *)

Lemma filter_id_of_others sid (rs : list row) :
  filter (λ r, row_id r = sid) (filter (λ r, row_id r ≠ sid) rs) = []
  ∧ filter (λ r, row_id r ≠ sid) (filter (λ r, row_id r ≠ sid) rs)
      = filter (λ r, row_id r ≠ sid) rs.
Proof.
  apply filter_id_none. intros r Hr.
  by apply list_elem_of_filter in Hr as [? _].
Qed.

(** An update is idempotent: when an update request has been answered 200,
    the same request served again with the store reachable is answered with
    the same record and leaves the store exactly as the first one did. *)
Theorem update_twice
  (up : bool) (sid : Z) (data : pyval) (db : store) (r : response) :
  out (update_student up sid data db) = Returned r →
  status r = 200 →
  out (update_student true sid data (store_after (update_student up sid data db)))
    = Returned r
  ∧ store_after
      (update_student true sid data (store_after (update_student up sid data db)))
    = store_after (update_student up sid data db).
Proof.
  intros Hout Hst.
  destruct (update_student_cases up sid data db)
    as [(old & new & n & e & a & c & Hout' & Hafter & Hhit & Hid & _ & Hp & Hb
         & Hn & Hem)|[Hne _]]; [|by destruct (Hne _ Hout)].
  rewrite Hout' in Hout. injection Hout as <-.
  assert (row_id new = sid) as Hsid.
  { assert (old ∈ filter (λ r, row_id r = sid) (students db)) as H
      by (rewrite Hhit; left).
    apply list_elem_of_filter in H as [H _]. congruence. }
  rewrite Hafter.
  set (rest := filter (λ r, row_id r ≠ sid) (students db)) in *.
  destruct (filter_id_of_others sid (students db)) as [Hnone Hsame].
  fold rest in Hnone, Hsame.
  unfold update_student, get_db_connection, select_by_id. simpl.
  rewrite (find_has_id_snoc sid rest new);
    [|apply find_filter_out | done].
  rewrite Hp. unfold exec_update. rewrite Hb. simpl pending.
  rewrite !filter_app, Hnone, Hsame, !filter_cons, !filter_nil.
  rewrite decide_True by done. rewrite decide_False by (by intros ?).
  simpl. rewrite app_nil_r.
  assert (mk_row (row_id new) (row_name new) (row_email new) (row_age new)
            (row_course new) (row_created_at new) = new) as -> by (by destruct new).
  rewrite Hn, Hem. simpl. done.
Qed.

Lemma update_twice_witness :
  out (update_student true 1 (PDict cy) ann_store)
    = Returned
        (mk_response
           (JObject
              (row_json (mk_row 1 (Some "Cy") (Some "cy@x.com") (Some 31)
                           (Some "EE") (Some 1000)))) 200)
  ∧ store_after
      (update_student true 1 (PDict cy)
         (store_after (update_student true 1 (PDict cy) ann_store)))
    = store_after (update_student true 1 (PDict cy) ann_store).
Proof.
  assert (out (update_student true 1 (PDict cy) ann_store)
    = Returned
        (mk_response
           (JObject
              (row_json (mk_row 1 (Some "Cy") (Some "cy@x.com") (Some 31)
                           (Some "EE") (Some 1000)))) 200)) as H
    by (by vm_compute).
  split; [exact H|].
  exact (proj2 (update_twice true 1 (PDict cy) ann_store _ H eq_refl)).
Defined.
